(** * sdiffe: symbolic differentiation of expression trees

    A shallow embedding of [src/main.cpp]: the class hierarchy under
    [base_expr] becomes one inductive type, the static [create] factories
    become functions that report whether they hand back an operand or a
    freshly allocated node, the virtual [diff] becomes a structural
    recursion returning an outcome (a value, a thrown [std::runtime_error],
    or undefined behaviour), and [display] becomes a function to strings.

    Values of type [std::double_t] are IEEE-754 binary64 numbers, taken
    from the [SpecFloat] specification of the Standard Library. *)

From Stdlib Require Import ZArith Bool List String Ascii Lia.
From Stdlib Require Import Floats.SpecFloat.
From Stdlib Require Import Reals Lra.

Import ListNotations.
Local Open Scope Z_scope.

(** ** Doubles *)

Module Double.

Definition prec : Z := 53.
Definition emax : Z := 1024.

Definition double : Type := spec_float.

(** Conversion of an integer literal to [double], as in [constant(0)],
    [constant(1)], [value() == 0] and [value() - 1]. *)
Definition of_int (n : Z) : double := binary_normalize prec emax n 0 false.

Definition add (x y : double) : double := SFadd prec emax x y.
Definition sub (x y : double) : double := SFsub prec emax x y.
Definition fabs (x : double) : double := SFabs x.

(** The operators [==] and [<] on doubles. *)
Definition eqb (x y : double) : bool := SFeqb x y.
Definition ltb (x y : double) : bool := SFltb x y.

(** [static constexpr double E = 2.718281828459045], that is
    [0x1.5bf0a8b145769p+1]. *)
Definition E : double := S754_finite false 6121026514868073 (-51).

(** The literal [0.0000000001], that is [0x1.b7cdfd9d7bdbbp-34]. *)
Definition tolerance : double := S754_finite false 7737125245533627 (-86).

Definition valid (x : double) : bool := valid_binary prec emax x.

(** *** Default stream output of a double

    [os << val] with the stream's default flags formats like [printf]
    with [%g] and precision 6: six significant decimal digits of the
    exactly rounded value (ties to even), fixed notation when the decimal
    exponent [X] satisfies [-4 <= X < 6] and scientific otherwise, with
    trailing zeros removed.  A NaN is written [nan] or [-nan] according
    to its sign bit, which the values of [spec_float] do not carry:
    [display] writes [nan] for every NaN, so the text of a NaN produced
    by the arithmetic of the program (such as [inf - inf], which has the
    sign bit set on x86-64) is not the one the program prints. *)

Definition pow10_le (k num den : Z) : bool :=
  if 0 <=? k then 10 ^ k * den <=? num else den <=? num * 10 ^ (- k).

(** Largest [X] (searched upwards) with [10^X <= num/den]. *)
Fixpoint exp10_search (fuel : nat) (X num den : Z) : Z :=
  match fuel with
  | O => X
  | S fuel' =>
      if pow10_le (X + 1) num den then exp10_search fuel' (X + 1) num den
      else X
  end.

Definition round_half_even (n d : Z) : Z :=
  let q := n / d in
  let r := n mod d in
  match 2 * r ?= d with
  | Lt => q
  | Gt => q + 1
  | Eq => if Z.even q then q else q + 1
  end.

(** The six significant digits and the decimal exponent of [num/den]. *)
Definition sig6 (num den : Z) : Z * Z :=
  let X := exp10_search 700 (-324) num den in
  let s := 5 - X in
  let d := if 0 <=? s then round_half_even (num * 10 ^ s) den
           else round_half_even num (den * 10 ^ (- s)) in
  if d =? 1000000 then (100000, X + 1) else (d, X).

Definition digit_char (d : Z) : ascii :=
  ascii_of_nat (48 + Z.to_nat d).

(** The [n] low decimal digits of [d], most significant first. *)
Fixpoint digits_of (n : nat) (d : Z) (acc : list ascii) : list ascii :=
  match n with
  | O => acc
  | S n' => digits_of n' (d / 10) (digit_char (d mod 10) :: acc)
  end.

Fixpoint strip_zeros_rev (l : list ascii) : list ascii :=
  match l with
  | c :: l' => if Ascii.eqb c "0" then strip_zeros_rev l' else l
  | [] => []
  end.

Definition strip_trailing_zeros (l : list ascii) : list ascii :=
  rev (strip_zeros_rev (rev l)).

Definition with_point (int_part frac : list ascii) : list ascii :=
  match strip_trailing_zeros frac with
  | [] => int_part
  | f => int_part ++ "."%char :: f
  end.

Definition exponent_suffix (X : Z) : list ascii :=
  let a := Z.abs X in
  "e"%char :: (if X <? 0 then "-"%char else "+"%char) ::
    (if a <? 100 then digits_of 2 a [] else digits_of 3 a []).

Definition format_g (num den : Z) : string :=
  let '(d, X) := sig6 num den in
  let ds := digits_of 6 d [] in
  string_of_list_ascii
    (if (X <? -4) || (6 <=? X) then
       with_point (firstn 1 ds) (skipn 1 ds) ++ exponent_suffix X
     else if X <? 0 then
       with_point ["0"%char] (repeat "0"%char (Z.to_nat (- X - 1)) ++ ds)
     else
       with_point (firstn (Z.to_nat (X + 1)) ds) (skipn (Z.to_nat (X + 1)) ds)).

Definition display (x : double) : string :=
  match x with
  | S754_nan => "nan"
  | S754_infinity s => if s then "-inf" else "inf"
  | S754_zero s => if s then "-0" else "0"
  | S754_finite s m e =>
      String.append (if s then "-" else "")
        (if 0 <=? e then format_g (Zpos m * 2 ^ e) 1
         else format_g (Zpos m) (2 ^ (- e)))
  end.

End Double.

Definition double : Type := Double.double.

Arguments Double.of_int : simpl never.
Arguments Double.add : simpl never.
Arguments Double.sub : simpl never.
Arguments Double.eqb : simpl never.
Arguments Double.ltb : simpl never.

(** ** Expressions

    One constructor per class derived from [base_expr]; the fields are
    those of the class ([val]; [name]; [lhs] and [rhs]; [value]).  Nodes are
    never mutated after construction, so a [base_expr_s] is modelled by the
    tree it points to. *)

Inductive base_expr : Type :=
| constant (val : double)
| variable (name : string)
| add (lhs rhs : base_expr)
| sub (lhs rhs : base_expr)
| mul (lhs rhs : base_expr)
| pow (lhs rhs : base_expr)
| div (lhs rhs : base_expr)
| ln (value : base_expr).

(** [base_expr::is_constant], overridden to [true] by [constant] only. *)
Definition is_constant (e : base_expr) : bool :=
  match e with
  | constant _ => true
  | _ => false
  end.

(** [constant::is_const_e]: [fabs(val - E) < 0.0000000001]. *)
Definition is_const_e (val : double) : bool :=
  Double.ltb (Double.fabs (Double.sub val Double.E)) Double.tolerance.

(** The test [e->is_constant()] followed by
    [dynamic_cast<constant *>(e.get())->value() == n] for an integer
    literal [n]. *)
Definition constant_is (e : base_expr) (n : Z) : bool :=
  match e with
  | constant val => Double.eqb val (Double.of_int n)
  | _ => false
  end.

(** ** Outcomes

    A call returns a value, throws [std::runtime_error] with a message, or
    has undefined behaviour (control flows off the end of a function that
    must return a value, or a member is read through a [static_cast] to
    the wrong class). *)

Inductive outcome (A : Type) : Type :=
| Return (a : A)
| Throw (what : string)
| Undefined.

Arguments Return {A} a.
Arguments Throw {A} what.
Arguments Undefined {A}.

Definition bind {A B : Type} (o : outcome A) (k : A -> outcome B) : outcome B :=
  match o with
  | Return a => k a
  | Throw what => Throw what
  | Undefined => Undefined
  end.

Notation "x <- o ;; k" := (bind o (fun x => k))
  (at level 61, o at next level, right associativity).

(** The two messages thrown by the program; the specification calls the
    errors DivisionByZero and LogOfZero. *)
Definition DivisionByZero : string := "math error: attempted to divide by zero".
Definition LogOfZero : string := "math error: argument of ln is zero".

(** ** Smart constructors

    A factory either returns one of the pointers it was given
    ([return lhs;], [return rhs;], [return value;]) or a pointer to a node it
    allocates with [new]. *)

Inductive created : Type :=
| Operand (e : base_expr)
| Fresh (e : base_expr).

Definition node (c : created) : base_expr :=
  match c with
  | Operand e => e
  | Fresh e => e
  end.

Coercion node : created >-> base_expr.

(** Number of nodes allocated by a call of a factory. *)
Definition allocations (o : outcome created) : nat :=
  match o with
  | Return (Fresh _) => 1
  | _ => 0
  end.

Definition add_create (lhs rhs : base_expr) : created :=
  if constant_is lhs 0 then Operand rhs
  else if constant_is rhs 0 then Operand lhs
  else Fresh (add lhs rhs).

Definition sub_create (lhs rhs : base_expr) : created :=
  if constant_is rhs 0 then Operand lhs
  else Fresh (sub lhs rhs).

Definition mul_create (lhs rhs : base_expr) : created :=
  if constant_is lhs 0 then Fresh (constant (Double.of_int 0))
  else if constant_is lhs 1 then Operand rhs
  else if constant_is rhs 0 then Fresh (constant (Double.of_int 0))
  else if constant_is rhs 1 then Operand lhs
  else Fresh (mul lhs rhs).

Definition pow_create (lhs rhs : base_expr) : created :=
  if negb (is_constant lhs) && is_constant rhs then
    if constant_is rhs 0 then Fresh (constant (Double.of_int 1))
    else if constant_is rhs 1 then Operand lhs
    else Fresh (pow lhs rhs)
  else Fresh (pow lhs rhs).

Definition div_create (lhs rhs : base_expr) : outcome created :=
  if constant_is rhs 0 then Throw DivisionByZero
  else if constant_is rhs 1 then Return (Operand lhs)
  else if constant_is lhs 0 then Return (Fresh (constant (Double.of_int 0)))
  else Return (Fresh (div lhs rhs)).

Definition ln_create (value : base_expr) : outcome created :=
  match value with
  | constant val =>
      if Double.eqb val (Double.of_int 0) then Throw LogOfZero
      else if is_const_e val then Return (Fresh (constant (Double.of_int 1)))
      else Return (Fresh (ln value))
  | _ => Return (Fresh (ln value))
  end.

(** The node held by the pointer a factory returns. *)
Definition created_node (o : outcome created) : outcome base_expr :=
  c <- o ;; Return (node c).

(** ** Differentiation

    The virtual [diff], by cases on the dynamic class of the receiver.
    The argument [dv] is a [base_expr_s] that [variable::diff] casts to
    [variable const *] without a check. *)

Fixpoint diff (e dv : base_expr) {struct e} : outcome base_expr :=
  match e with
  | constant _ => Return (constant (Double.of_int 0))
  | variable name =>
      match dv with
      | variable other =>
          if String.eqb name other then Return (constant (Double.of_int 1))
          else Undefined
      | _ => Undefined
      end
  | add lhs rhs =>
      lhs_d <- diff lhs dv ;;
      rhs_d <- diff rhs dv ;;
      match lhs_d, rhs_d with
      | constant l, constant r => Return (constant (Double.add l r))
      | _, _ => Return (add lhs_d rhs_d)
      end
  | sub lhs rhs =>
      lhs_d <- diff lhs dv ;;
      rhs_d <- diff rhs dv ;;
      match lhs_d, rhs_d with
      | constant l, constant r => Return (constant (Double.sub l r))
      | _, _ => Return (add lhs_d rhs_d)
      end
  | mul lhs rhs =>
      lhs_d <- diff lhs dv ;;
      rhs_d <- diff rhs dv ;;
      Return (node (add_create (mul_create lhs rhs_d) (mul_create lhs_d rhs)))
  | div lhs rhs =>
      lhs_d <- diff lhs dv ;;
      rhs_d <- diff rhs dv ;;
      created_node
        (div_create
           (sub_create (mul_create lhs rhs_d) (mul_create rhs_d lhs))
           (pow_create rhs (constant (Double.of_int 2))))
  | ln value =>
      value_d <- diff value dv ;;
      q <- div_create (constant (Double.of_int 1)) value ;;
      Return (node (mul_create q value_d))
  | pow lhs rhs =>
      if negb (is_constant lhs) && is_constant rhs then
        lhs_d <- diff lhs dv ;;
        match rhs with
        | constant val =>
            let new_power := constant (Double.sub val (Double.of_int 1)) in
            Return (node (mul_create (mul_create rhs (pow_create lhs new_power)) lhs_d))
        | _ => Undefined
        end
      else if is_constant lhs && negb (is_constant rhs) then
        rhs_d <- diff rhs dv ;;
        l <- ln_create lhs ;;
        Return (node (mul_create (mul_create (pow_create lhs rhs) l) rhs_d))
      else Undefined
  end.

(** ** Rendering: [display], the text written to the stream. *)

Fixpoint display (e : base_expr) : string :=
  match e with
  | constant val => Double.display val
  | variable name => name
  | add lhs rhs => "(" ++ display lhs ++ " + " ++ display rhs ++ ")"
  | sub lhs rhs => "(" ++ display lhs ++ " - " ++ display rhs ++ ")"
  | mul lhs rhs => "(" ++ display lhs ++ " * " ++ display rhs ++ ")"
  | pow lhs rhs => "(" ++ display lhs ++ " ^ " ++ display rhs ++ ")"
  | div lhs rhs => "(" ++ display lhs ++ " / " ++ display rhs ++ ")"
  | ln value => " ln(" ++ display value ++ ")"
  end%string.

(** ** The expressions built by [main] *)

Definition x : base_expr := variable "x".
Definition c1 : base_expr := constant (Double.of_int 69).
Definition c2 : base_expr := constant (Double.of_int 420).
Definition c3 : base_expr := constant (Double.of_int 5).
Definition c4 : base_expr := constant Double.E.

Definition pow1 : base_expr :=
  add_create (mul_create c3 (pow_create x c1)) (mul_create c3 (pow_create x c2)).
Definition pow2 : base_expr := pow_create c3 (mul_create c1 x).
Definition pow3 : base_expr := pow_create c4 (mul_create c1 x).

(** [main]: the text written to [std::cout]. *)
Definition tab : string := String (ascii_of_nat 9) EmptyString.
Definition endl : string := String (ascii_of_nat 10) EmptyString.

Definition main : outcome string :=
  pow1d <- diff pow1 x ;;
  pow2d <- diff pow2 x ;;
  pow3d <- diff pow3 x ;;
  Return (display pow1 ++ tab ++ ":" ++ tab ++ display pow1d ++ endl ++
          display pow2 ++ tab ++ ":" ++ tab ++ display pow2d ++ endl ++
          display pow3 ++ tab ++ ":" ++ tab ++ display pow3d ++ endl)%string.

(** ** Auxiliary notions used in the statements *)

(** Negative zero, [-0.0]. *)
Definition neg_zero : double := S754_zero true.

(** The text of a derivative, when there is one. *)
Definition rendered (o : outcome base_expr) : outcome string :=
  e <- o ;; Return (display e).

(** The double [6121026515093253 * 2^-51], 225180 units in the last
    place above [E]. *)
Definition e_neighbour : double := S754_finite false 6121026515093253 (-51).

(** The smallest positive double, [2^-1074]. *)
Definition tiny : double := S754_finite false 1 (-1074).

(** The double that follows [E]. *)
Definition E_succ : double := S754_finite false 6121026514868074 (-51).

(** Names of the variables that occur in an expression. *)
Fixpoint vars (e : base_expr) : list string :=
  match e with
  | constant _ => []
  | variable name => [name]
  | add lhs rhs | sub lhs rhs | mul lhs rhs | pow lhs rhs | div lhs rhs =>
      vars lhs ++ vars rhs
  | ln value => vars value
  end.

(** A node to which a rule of its factory applies. *)
Definition reducible (e : base_expr) : bool :=
  match e with
  | add lhs rhs => constant_is lhs 0 || constant_is rhs 0
  | sub lhs rhs => constant_is rhs 0
  | mul lhs rhs =>
      constant_is lhs 0 || constant_is lhs 1 || constant_is rhs 0 || constant_is rhs 1
  | pow lhs rhs =>
      negb (is_constant lhs) && (constant_is rhs 0 || constant_is rhs 1)
  | div lhs rhs => constant_is rhs 0 || constant_is rhs 1 || constant_is lhs 0
  | ln (constant val) => Double.eqb val (Double.of_int 0) || is_const_e val
  | _ => false
  end.

(** No node of the tree is reducible. *)
Fixpoint simplified (e : base_expr) : bool :=
  negb (reducible e) &&
  match e with
  | constant _ | variable _ => true
  | add lhs rhs | sub lhs rhs | mul lhs rhs | pow lhs rhs | div lhs rhs =>
      simplified lhs && simplified rhs
  | ln value => simplified value
  end.

(** *** Exact values of doubles *)

Module Binary64.

(** Results that are not below [2^-33]: an infinity, or a finite number
    whose exponent is at least [-85]. *)
Definition big (r : spec_float) : Prop :=
  match r with
  | S754_infinity _ => True
  | S754_finite _ _ e => -85 <= e
  | _ => False
  end.

(** *** The test of [constant::is_const_e] *)

Definition mE : Z := 6121026514868073.

(** Exponent and mantissa of the exact difference [c - E] for
    [c = (-1)^s * m * 2^e]. *)
Definition diff_exp (e : Z) : Z := Z.min e (-51).
Definition diff_man (s : bool) (m : positive) (e : Z) : Z :=
  cond_Zopp s (Zpos m * 2 ^ (e - diff_exp e)) - mE * 2 ^ (-51 - diff_exp e).

End Binary64.

(** The real number denoted by a double (0 for infinities and NaN). *)
Definition to_R (c : double) : R :=
  match c with
  | S754_finite s m e => (IZR (cond_Zopp s (Zpos m)) * powerRZ 2 e)%R
  | _ => 0%R
  end.

Definition is_finite (c : double) : bool :=
  match c with
  | S754_finite _ _ _ | S754_zero _ => true
  | _ => false
  end.

(** Within absolute tolerance [1e-10] of Euler's number. *)
Definition within_e (c : double) : Prop :=
  is_finite c = true /\ (Rabs (to_R c - exp 1) < / IZR (10 ^ 10))%R.

(** Within absolute tolerance [1e-10] of the constant [E] of the program. *)
Definition within_E (c : double) : Prop :=
  is_finite c = true /\ (Rabs (to_R c - to_R Double.E) < / IZR (10 ^ 10))%R.

(** *** Rational bounds on Euler's number *)

Module Euler.

(** Partial sums of the series of [exp (-1)], as fractions over a
    factorial. *)
Fixpoint Zfact (n : nat) : Z :=
  match n with
  | O => 1
  | S n' => Z.of_nat n * Zfact n'
  end.

Fixpoint sgn (n : nat) : Z :=
  match n with
  | O => 1
  | S n' => - sgn n'
  end.

Fixpoint alt_num (n : nat) : Z :=
  match n with
  | O => 1
  | S n' => alt_num n' * Z.of_nat n + sgn n
  end.

Definition e_lower : Z * Z := Eval vm_compute in (Zfact 20, alt_num 20).
Definition e_upper : Z * Z := Eval vm_compute in (Zfact 21, alt_num 21).

End Euler.

(** * Properties *)

(** ** Comparisons with the literals 0 and 1 *)

Lemma of_int_0 : Double.of_int 0 = S754_zero false.
Proof. reflexivity. Qed.

Lemma of_int_1 : Double.of_int 1 = S754_finite false 4503599627370496 (-52).
Proof. reflexivity. Qed.

Lemma eqb_0_not_1 (c : double) :
  Double.eqb c (Double.of_int 0) = true -> Double.eqb c (Double.of_int 1) = false.
Proof. destruct c as [s|s| |s m e]; try destruct s; try discriminate; reflexivity. Qed.

Lemma eqb_1_eq (c : double) :
  Double.eqb c (Double.of_int 1) = true -> c = Double.of_int 1.
Proof.
  rewrite of_int_1. unfold Double.eqb, SFeqb, SFcompare.
  destruct c as [s|s| |s m e].
  - discriminate.
  - destruct s; discriminate.
  - discriminate.
  - destruct s; [discriminate|].
    destruct (e ?= -52) eqn:He; try discriminate.
    apply Z.compare_eq in He. subst e.
    destruct (Pos.compare_cont Eq m 4503599627370496) eqn:Hm; try discriminate.
    intros _. apply Pos.compare_eq in Hm. subst m. reflexivity.
Qed.

Lemma constant_is_0_not_1 (e : base_expr) :
  constant_is e 0 = true -> constant_is e 1 = false.
Proof. destruct e; cbn [constant_is]; try discriminate. apply eqb_0_not_1. Qed.

Lemma constant_is_constant (e : base_expr) (n : Z) :
  constant_is e n = true -> is_constant e = true.
Proof. destruct e; cbn [constant_is is_constant]; congruence. Qed.

Lemma pow_create_two (e : base_expr) :
  pow_create e (constant (Double.of_int 2)) = Fresh (pow e (constant (Double.of_int 2))).
Proof. unfold pow_create. destruct (negb (is_constant e)); reflexivity. Qed.

(** ** Rounding in binary64 *)

Module Binary64Facts.

Import Double Binary64.



Lemma fexp_normal (t : Z) : -1021 <= t -> fexp prec emax t = t - 53.
Proof. unfold fexp, emin, prec, emax. lia. Qed.

Lemma fexp_ge (t : Z) : -1074 <= fexp prec emax t.
Proof. unfold fexp, emin, prec, emax. lia. Qed.

(** *** Number of binary digits *)

Lemma digits2_pos_bounds (p : positive) :
  2 ^ (Zpos (digits2_pos p) - 1) <= Zpos p < 2 ^ Zpos (digits2_pos p).
Proof.
  induction p as [p IH|p IH|]; cbn [digits2_pos];
    [rewrite Pos2Z.inj_succ, (Pos2Z.inj_xI p)
    |rewrite Pos2Z.inj_succ, (Pos2Z.inj_xO p)
    |cbn; lia];
    pose proof (Pos2Z.is_pos (digits2_pos p)) as Hd;
    revert IH Hd; generalize (Zpos (digits2_pos p)); intros d IH Hd;
    replace (Z.succ d - 1) with (Z.succ (d - 1)) by lia;
    rewrite !Z.pow_succ_r by lia; lia.
Qed.

Lemma Zdigits2_bounds (m : Z) :
  0 < m -> 2 ^ (Zdigits2 m - 1) <= m < 2 ^ Zdigits2 m.
Proof. destruct m; try lia. intros _. apply digits2_pos_bounds. Qed.

Lemma Zdigits2_pos (m : Z) : 0 < m -> 0 < Zdigits2 m.
Proof. destruct m; cbn; lia. Qed.

(** A positive number below [2^d] has at most [d] digits, one not below
    [2^d] has more than [d]. *)
Lemma Zdigits2_le (m d : Z) : 0 < m -> m < 2 ^ d -> Zdigits2 m <= d.
Proof.
  intros Hm Hlt. destruct (Z_le_gt_dec (Zdigits2 m) d) as [|Hgt]; [assumption|].
  pose proof (Zdigits2_bounds m Hm) as [Hlo _].
  assert (0 <= d) by (destruct (Z_le_gt_dec 0 d); [assumption|];
                      rewrite Z.pow_neg_r in Hlt; lia).
  pose proof (Z.pow_le_mono_r 2 d (Zdigits2 m - 1)). lia.
Qed.

Lemma Zdigits2_gt (m d : Z) : 0 < m -> 2 ^ d <= m -> d < Zdigits2 m.
Proof.
  intros Hm Hle. destruct (Z_lt_le_dec d (Zdigits2 m)) as [|Hge]; [assumption|].
  pose proof (Zdigits2_bounds m Hm) as [_ Hhi].
  pose proof (Zdigits2_pos m Hm).
  pose proof (Z.pow_le_mono_r 2 (Zdigits2 m) d). lia.
Qed.

(** *** Shifts to the left *)

Lemma iter_xO_val (p k : positive) :
  Zpos (Pos.iter xO p k) = Zpos p * 2 ^ Zpos k.
Proof.
  induction k as [|k IH] using Pos.peano_ind.
  - cbn. lia.
  - rewrite Pos.iter_succ, (Pos2Z.inj_xO (Pos.iter xO p k)), IH, Pos2Z.inj_succ, Z.pow_succ_r by lia. lia.
Qed.

Lemma shl_align_spec (mx : positive) (ex ex' : Z) :
  shl_align mx ex ex' =
    if ex' <? ex then (Pos.iter xO mx (Z.to_pos (ex - ex')), ex') else (mx, ex).
Proof.
  unfold shl_align.
  destruct (Z.ltb_spec ex' ex) as [Hlt|Hge]; destruct (ex' - ex) eqn:Hd; try lia;
    try reflexivity.
  replace (ex - ex') with (Zpos p) by lia. reflexivity.
Qed.

Lemma shl_align_val (mx : positive) (ex ex' : Z) :
  ex' <= ex -> Zpos (fst (shl_align mx ex ex')) = Zpos mx * 2 ^ (ex - ex').
Proof.
  intros Hle. rewrite shl_align_spec.
  destruct (Z.ltb_spec ex' ex) as [Hlt|Hge]; cbn [fst].
  - rewrite iter_xO_val, Z2Pos.id by lia. reflexivity.
  - replace (ex - ex') with 0 by lia. lia.
Qed.

(** *** Shifts to the right *)

Lemma shr_1_m (mrs : shr_record) :
  0 <= shr_m mrs -> shr_m (shr_1 mrs) = shr_m mrs / 2.
Proof.
  destruct mrs as [m r s]. cbn [shr_m]. intros Hm.
  destruct m as [|p|p]; [reflexivity| |lia].
  rewrite <- Z.div2_div. destruct p; reflexivity.
Qed.

Lemma iter_shr_1_m (n : positive) :
  forall mrs, 0 <= shr_m mrs ->
              shr_m (SpecFloat.iter_pos shr_1 n mrs) = shr_m mrs / 2 ^ Zpos n.
Proof.
  induction n as [n IH|n IH|]; intros mrs Hm; cbn [SpecFloat.iter_pos].
  - assert (H1 : 0 <= shr_m (shr_1 mrs))
      by (rewrite shr_1_m by assumption; apply Z.div_pos; lia).
    assert (H2 : 0 <= shr_m (SpecFloat.iter_pos shr_1 n (shr_1 mrs)))
      by (rewrite IH by assumption; apply Z.div_pos; lia).
    rewrite IH, IH, shr_1_m by assumption.
    rewrite !Z.div_div by lia.
    f_equal. rewrite (Pos2Z.inj_xI n).
    replace (2 * Zpos n + 1) with (1 + Zpos n + Zpos n) by lia.
    rewrite !Z.pow_add_r by lia. lia.
  - assert (H2 : 0 <= shr_m (SpecFloat.iter_pos shr_1 n mrs))
      by (rewrite IH by assumption; apply Z.div_pos; lia).
    rewrite IH, IH by assumption.
    rewrite !Z.div_div by lia.
    f_equal. rewrite (Pos2Z.inj_xO n).
    replace (2 * Zpos n) with (Zpos n + Zpos n) by lia.
    rewrite !Z.pow_add_r by lia. lia.
  - rewrite shr_1_m by assumption. reflexivity.
Qed.


Lemma shr_record_of_loc_m (m : Z) (l : location) :
  shr_m (shr_record_of_loc m l) = m.
Proof. destruct l as [|[]]; reflexivity. Qed.

Lemma shr_spec (mrs : shr_record) (e n : Z) :
  0 <= shr_m mrs -> 0 <= n ->
  exists mrs', shr mrs e n = (mrs', e + n) /\ shr_m mrs' = shr_m mrs / 2 ^ n.
Proof.
  intros Hm Hn. destruct n as [|p|p]; [| |lia]; cbn [shr].
  - exists mrs. rewrite Z.add_0_r, Z.pow_0_r, Z.div_1_r. split; reflexivity.
  - exists (SpecFloat.iter_pos shr_1 p mrs). split; [reflexivity|].
    apply iter_shr_1_m. assumption.
Qed.

(** A number of at least 53 digits in the range of normal numbers is
    shifted right until 53 digits remain. *)
Lemma shr_fexp_spec (m e : Z) (l : location) :
  0 < m -> 53 <= Zdigits2 m -> -1021 <= Zdigits2 m + e ->
  exists mrs',
    shr_fexp prec emax m e l = (mrs', e + (Zdigits2 m - 53)) /\
    2 ^ 52 <= shr_m mrs' < 2 ^ 53.
Proof.
  intros Hm Hd Ht. unfold shr_fexp. rewrite fexp_normal by assumption.
  replace (Zdigits2 m + e - 53 - e) with (Zdigits2 m - 53) by lia.
  destruct (shr_spec (shr_record_of_loc m l) e (Zdigits2 m - 53)) as (mrs' & Hs & Hv).
  - rewrite shr_record_of_loc_m. lia.
  - lia.
  - exists mrs'. split; [assumption|].
    rewrite Hv, shr_record_of_loc_m.
    pose proof (Zdigits2_bounds m Hm) as [Hlo Hhi].
    revert Hlo Hhi Hd. generalize (Zdigits2 m). intros d Hlo Hhi Hd.
    assert (Hb : 0 < 2 ^ (d - 53)) by (apply Z.pow_pos_nonneg; lia).
    split.
    + apply Z.div_le_lower_bound; [assumption|].
      rewrite <- Z.pow_add_r by lia.
      replace (d - 53 + 52) with (d - 1) by lia. assumption.
    + apply Z.div_lt_upper_bound; [assumption|].
      rewrite <- Z.pow_add_r by lia.
      replace (d - 53 + 53) with d by lia. assumption.
Qed.

Lemma round_nearest_even_bounds (m : Z) (l : location) :
  m <= round_nearest_even m l <= m + 1.
Proof. destruct l as [|[]]; cbn [round_nearest_even]; try destruct (Z.even m); lia. Qed.

Lemma big_not_below_tolerance (r : spec_float) :
  big r -> ltb (fabs r) tolerance = false.
Proof.
  destruct r as [s|s| |s m e]; cbn [big]; try contradiction; intros H.
  - reflexivity.
  - unfold ltb, fabs, SFabs, SFltb, SFcompare, tolerance.
    destruct (Z.compare_spec e (-86)); first [lia | reflexivity].
Qed.

Lemma binary_round_aux_big (s : bool) (m e : Z) (l : location) :
  0 < m -> 53 <= Zdigits2 m -> -32 <= Zdigits2 m + e ->
  big (binary_round_aux prec emax s m e l).
Proof.
  intros Hm Hd Ht. unfold binary_round_aux.
  destruct (shr_fexp_spec m e l) as (mrs1 & E1 & B1); try lia.
  rewrite E1.
  pose proof (round_nearest_even_bounds (shr_m mrs1) (loc_of_shr_record mrs1)) as B2.
  set (m2 := round_nearest_even (shr_m mrs1) (loc_of_shr_record mrs1)) in *.
  assert (Hm2 : 0 < m2) by lia.
  assert (Hd2 : 52 < Zdigits2 m2) by (apply Zdigits2_gt; lia).
  destruct (shr_fexp_spec m2 (e + (Zdigits2 m - 53)) loc_Exact) as (mrs2 & E2 & B3);
    try lia.
  rewrite E2.
  destruct (shr_m mrs2) as [|p|p]; try lia.
  destruct (_ <=? _); cbn [big]; [lia|exact I].
Qed.


Lemma iter_xO_digits (p k : positive) :
  digits2_pos (Pos.iter xO p k) = (digits2_pos p + k)%positive.
Proof.
  induction k as [|k IH] using Pos.peano_ind.
  - cbn [Pos.iter digits2_pos]. rewrite Pos.add_1_r. reflexivity.
  - rewrite Pos.iter_succ. cbn [digits2_pos]. rewrite IH, Pos.add_succ_r. reflexivity.
Qed.

(** Rounding a number of magnitude at least [2^-33]. *)
Lemma binary_round_big (s : bool) (p : positive) (e : Z) :
  -32 <= Zpos (digits2_pos p) + e -> big (binary_round prec emax s p e).
Proof.
  intros Ht. unfold binary_round. rewrite shl_align_spec, fexp_normal by lia.
  destruct (Z.ltb_spec (Zpos (digits2_pos p) + e - 53) e) as [Hlt|Hge].
  - apply binary_round_aux_big; cbn [Zdigits2]; try rewrite iter_xO_digits; lia.
  - apply binary_round_aux_big; cbn [Zdigits2]; lia.
Qed.

(** Rounding is exact on numbers of at most 53 digits in the range of
    normal numbers. *)
Lemma binary_round_aux_exact (s : bool) (p : positive) (e : Z) :
  Zpos (digits2_pos p) = 53 -> -1074 <= e <= 971 ->
  binary_round_aux prec emax s (Zpos p) e loc_Exact = S754_finite s p e.
Proof.
  intros Hd He. unfold binary_round_aux, shr_fexp. cbn [Zdigits2].
  rewrite Hd, fexp_normal by lia.
  replace (53 + e - 53 - e) with 0 by lia.
  cbn [shr shr_record_of_loc shr_m loc_of_shr_record round_nearest_even Zdigits2].
  rewrite Hd, fexp_normal by lia.
  replace (53 + e - 53 - e) with 0 by lia.
  cbn [shr shr_record_of_loc shr_m].
  destruct (Z.leb_spec e (emax - prec)) as [|Hgt]; [reflexivity|].
  unfold emax, prec in Hgt. lia.
Qed.

Lemma binary_round_small (s : bool) (p : positive) (e : Z) :
  Zpos (digits2_pos p) <= 53 ->
  -1021 <= Zpos (digits2_pos p) + e ->
  Zpos (digits2_pos p) + e - 53 <= 971 ->
  exists mz,
    binary_round prec emax s p e = S754_finite s mz (Zpos (digits2_pos p) + e - 53) /\
    Zpos mz = Zpos p * 2 ^ (53 - Zpos (digits2_pos p)).
Proof.
  intros Hd Hlo Hhi. unfold binary_round. rewrite shl_align_spec, fexp_normal by lia.
  destruct (Z.ltb_spec (Zpos (digits2_pos p) + e - 53) e) as [Hlt|Hge].
  - exists (Pos.iter xO p (Z.to_pos (e - (Zpos (digits2_pos p) + e - 53)))). split.
    + apply binary_round_aux_exact; [|lia].
      rewrite iter_xO_digits, Pos2Z.inj_add, Z2Pos.id by lia. lia.
    + rewrite iter_xO_val, Z2Pos.id by lia. f_equal. f_equal. lia.
  - exists p. assert (Hd53 : Zpos (digits2_pos p) = 53) by lia. split.
    + replace (Zpos (digits2_pos p) + e - 53) with e by lia.
      apply binary_round_aux_exact; [assumption|lia].
    + rewrite Hd53. cbn. lia.
Qed.

Lemma sub_E_finite (s : bool) (m : positive) (e : Z) :
  sub (S754_finite s m e) E =
    binary_normalize prec emax (diff_man s m e) (diff_exp e) false.
Proof.
  unfold sub, E, SFsub, diff_man, diff_exp. cbv zeta.
  rewrite !shl_align_val by lia. reflexivity.
Qed.


(** What [valid] says of a finite number. *)
Lemma bounded_inv (m : positive) (e : Z) :
  SpecFloat.bounded prec emax m e = true ->
  -1074 <= e <= 971 /\ Zpos m < 2 ^ 53 /\ (-1074 < e -> 2 ^ 52 <= Zpos m).
Proof.
  unfold SpecFloat.bounded, canonical_mantissa. intros H.
  apply andb_true_iff in H. destruct H as [Hc He].
  apply Z.eqb_eq in Hc. apply Z.leb_le in He.
  pose proof (digits2_pos_bounds m) as [Hlo Hhi].
  pose proof (Pos2Z.is_pos (digits2_pos m)) as Hd.
  unfold fexp, emin, emax, prec in *.
  revert Hc Hlo Hhi Hd. generalize (Zpos (digits2_pos m)). intros d Hc Hlo Hhi Hd.
  assert (Hd53 : d <= 53) by lia.
  pose proof (Z.pow_le_mono_r 2 d 53 ltac:(lia) Hd53) as Hp.
  repeat split; try lia.
  intros Hn. assert (d = 53) by lia. subst d. exact Hlo.
Qed.

(** If the test succeeds, the exact difference is below [2^-33]. *)
Lemma is_const_e_small (s : bool) (m : positive) (e : Z) :
  is_const_e (S754_finite s m e) = true ->
  Z.abs (diff_man s m e) < 2 ^ (-33 - diff_exp e).
Proof.
  unfold is_const_e. rewrite sub_E_finite.
  assert (Hez : diff_exp e <= -51) by (unfold diff_exp; lia).
  revert Hez. generalize (diff_exp e) (diff_man s m e). intros ez D Hez H.
  assert (Hsmall : forall sg q, ltb (fabs (binary_round prec emax sg q ez)) tolerance = true ->
                                Zpos q < 2 ^ (-33 - ez)).
  { intros sg q Hq.
    destruct (Z_lt_le_dec (Zpos (digits2_pos q) + ez) (-32)) as [Hlt|Hge].
    - pose proof (digits2_pos_bounds q) as [_ Hhi].
      pose proof (Z.pow_le_mono_r 2 (Zpos (digits2_pos q)) (-33 - ez)
                    ltac:(lia) ltac:(lia)).
      lia.
    - rewrite (big_not_below_tolerance _ (binary_round_big sg q ez Hge)) in Hq.
      discriminate. }
  destruct D as [|q|q]; cbn [binary_normalize Z.abs] in *.
  - apply Z.pow_pos_nonneg; lia.
  - apply (Hsmall false). assumption.
  - apply (Hsmall true). assumption.
Qed.

(** A valid number whose exact difference with [E] is below [2^-33]
    is positive, has the exponent of [E], and its mantissa differs from
    that of [E] by less than [2^18]. *)
Lemma close_to_E (s : bool) (m : positive) (e : Z) :
  SpecFloat.bounded prec emax m e = true ->
  Z.abs (diff_man s m e) < 2 ^ (-33 - diff_exp e) ->
  s = false /\ e = -51 /\ Z.abs (Zpos m - mE) < 2 ^ 18.
Proof.
  intros Hb. apply bounded_inv in Hb. destruct Hb as (He & Hhi & Hlo).
  unfold diff_man, diff_exp, mE.
  destruct (Z.lt_trichotomy e (-51)) as [Hlt|[Heq|Hgt]].
  - (* below the binade of E *)
    rewrite Z.min_l by lia. rewrite Z.sub_diag, Z.pow_0_r, Z.mul_1_r.
    replace (-33 - e) with (18 + (-51 - e)) by lia.
    rewrite Z.pow_add_r by lia.
    assert (HK : 2 ^ 1 <= 2 ^ (-51 - e)) by (apply Z.pow_le_mono_r; lia).
    revert HK. generalize (2 ^ (-51 - e)). intros K HK H. exfalso.
    change (2 ^ 1) with 2 in HK. change (2 ^ 18) with 262144 in H.
    change (2 ^ 53) with 9007199254740992 in Hhi.
    destruct s; cbn [cond_Zopp] in H; lia.
  - subst e. rewrite Z.min_l by lia. rewrite !Z.sub_diag, Z.pow_0_r, !Z.mul_1_r.
    replace (-33 - -51) with 18 by lia. intros H.
    change (2 ^ 18) with 262144 in *.
    destruct s; cbn [cond_Zopp] in H; [exfalso; lia|].
    repeat split. exact H.
  - (* above the binade of E *)
    rewrite Z.min_r by lia. rewrite Z.sub_diag, Z.pow_0_r, Z.mul_1_r.
    replace (-33 - -51) with 18 by lia.
    assert (HK : 2 ^ 1 <= 2 ^ (e - -51)) by (apply Z.pow_le_mono_r; lia).
    specialize (Hlo ltac:(lia)).
    revert HK. generalize (2 ^ (e - -51)). intros K HK H. exfalso.
    change (2 ^ 1) with 2 in HK. change (2 ^ 18) with 262144 in H.
    change (2 ^ 52) with 4503599627370496 in Hlo.
    destruct s; cbn [cond_Zopp] in H; nia.
Qed.


(** In the binade of [E] the subtraction is exact and the test compares
    the distance of the mantissas with [225179]. *)
Lemma is_const_e_binade (m : positive) :
  Zpos m < 2 ^ 53 ->
  is_const_e (S754_finite false m (-51)) = (Z.abs (Zpos m - mE) <=? 225179).
Proof.
  intros Hm. unfold is_const_e. rewrite sub_E_finite.
  unfold diff_man, diff_exp. rewrite Z.min_l by lia.
  rewrite !Z.sub_diag, Z.pow_0_r, !Z.mul_1_r. cbn [cond_Zopp].
  assert (Hround : forall sg q, Zpos q < 2 ^ 53 ->
            ltb (fabs (binary_round prec emax sg q (-51))) tolerance = (Zpos q <=? 225179)).
  { intros sg q Hq.
    assert (Hd : Zpos (digits2_pos q) <= 53)
      by (apply (Zdigits2_le (Zpos q)); [reflexivity|assumption]).
    destruct (binary_round_small sg q (-51)) as (mz & Hr & Hv); try lia.
    rewrite Hr. unfold ltb, fabs, SFabs, SFltb, SFcompare, tolerance.
    pose proof (digits2_pos_bounds q) as [Hlo Hhi].
    pose proof (Pos2Z.is_pos (digits2_pos q)) as Hpos.
    revert Hd Hv Hlo Hhi Hpos. generalize (Zpos (digits2_pos q)). intros d Hd Hv Hlo Hhi Hpos.
    destruct (Z.compare_spec (d + -51 - 53) (-86)) as [Heq|Hlt|Hgt].
    - assert (d = 18) by lia. subst d.
      change (2 ^ (53 - 18)) with 34359738368 in Hv.
      rewrite Pos.compare_cont_spec, Pos2Z.inj_compare, Hv.
      destruct (Z.compare_spec (Zpos q * 34359738368) 7737125245533627) as [Hc|Hc|Hc];
        cbn [Pos.switch_Eq];
        destruct (Z.leb_spec (Zpos q) 225179); try reflexivity; exfalso; lia.
    - pose proof (Z.pow_le_mono_r 2 d 17 ltac:(lia) ltac:(lia)).
      change (2 ^ 17) with 131072 in *.
      destruct (Z.leb_spec (Zpos q) 225179); [reflexivity|lia].
    - pose proof (Z.pow_le_mono_r 2 18 (d - 1) ltac:(lia) ltac:(lia)).
      change (2 ^ 18) with 262144 in *.
      destruct (Z.leb_spec (Zpos q) 225179); [lia|reflexivity]. }
  unfold mE in *. change (2 ^ 53) with 9007199254740992 in *.
  destruct (Zpos m - 6121026514868073) as [|q|q] eqn:HD; cbn [binary_normalize Z.abs].
  - reflexivity.
  - apply Hround. lia.
  - apply Hround. lia.
Qed.

Lemma is_const_e_special :
  (forall s, is_const_e (S754_zero s) = false) /\
  (forall s, is_const_e (S754_infinity s) = false) /\
  is_const_e S754_nan = false.
Proof. repeat split; intros []; vm_compute; reflexivity. Qed.

(** The doubles accepted by [is_const_e]: those within [225179] units in
    the last place of [E]. *)
Theorem is_const_e_iff (c : double) :
  valid c = true ->
  (is_const_e c = true <->
   exists m, c = S754_finite false m (-51) /\ Z.abs (Zpos m - mE) <= 225179).
Proof.
  intros Hv. destruct is_const_e_special as (Hz & Hi & Hn). split.
  - intros H. destruct c as [s|s| |s m e].
    + rewrite Hz in H. discriminate H.
    + rewrite Hi in H. discriminate H.
    + rewrite Hn in H. discriminate H.
    + unfold valid in Hv. cbn [valid_binary] in Hv.
      destruct (close_to_E s m e Hv (is_const_e_small s m e H)) as (-> & -> & Hm).
      exists m. split; [reflexivity|].
      apply bounded_inv in Hv. destruct Hv as (_ & Hhi & _).
      rewrite is_const_e_binade in H by assumption.
      apply Z.leb_le. assumption.
  - intros (m & -> & Hm).
    unfold valid in Hv. cbn [valid_binary] in Hv.
    apply bounded_inv in Hv. destruct Hv as (_ & Hhi & _).
    rewrite is_const_e_binade by assumption. apply Z.leb_le. assumption.
Qed.

End Binary64Facts.

(** ** Euler's number *)

Module EulerFacts.

Import Euler.


Lemma Zfact_pos (n : nat) : 0 < Zfact n.
Proof. induction n; cbn [Zfact]; lia. Qed.

Lemma INR_fact (n : nat) : INR (fact n) = IZR (Zfact n).
Proof.
  induction n as [|n IH].
  - reflexivity.
  - change (fact (S n)) with (S n * fact n)%nat.
    rewrite mult_INR, IH. cbn [Zfact]. rewrite mult_IZR, <- INR_IZR_INZ. reflexivity.
Qed.

Lemma pow_m1 (n : nat) : ((-1) ^ n)%R = IZR (sgn n).
Proof.
  induction n as [|n IH].
  - reflexivity.
  - cbn [sgn]. rewrite <- tech_pow_Rmult, IH, opp_IZR. lra.
Qed.

Lemma alt_sum (n : nat) :
  sum_f_R0 (tg_alt (fun i => / INR (fact i))%R) n = (IZR (alt_num n) / IZR (Zfact n))%R.
Proof.
  induction n as [|n IH].
  - cbn. unfold tg_alt. cbn. lra.
  - cbn [sum_f_R0]. rewrite IH. unfold tg_alt. rewrite pow_m1, INR_fact.
    cbn [alt_num Zfact]. rewrite plus_IZR, !mult_IZR.
    pose proof (Zfact_pos n) as Hf. apply IZR_lt in Hf.
    assert (Hn : (0 < IZR (Z.of_nat (S n)))%R) by (apply IZR_lt; lia).
    field. split; lra.
Qed.

Lemma exp_m1_bounds (N : nat) :
  (sum_f_R0 (tg_alt (fun i => / INR (fact i))) (S (2 * N)) <= exp (-1) <=
   sum_f_R0 (tg_alt (fun i => / INR (fact i))) (2 * N))%R.
Proof.
  unfold exp. destruct (exist_exp (-1)) as (l & Hl). cbn [proj1_sig].
  apply alternated_series_ineq.
  - intros n. apply Rinv_le_contravar; [apply INR_fact_lt_0|].
    apply le_INR, fact_le. lia.
  - intros eps Heps. destruct (cv_speed_pow_fact 1 eps Heps) as (n0 & Hn0).
    exists n0. intros n Hn. specialize (Hn0 n Hn).
    rewrite Rfunctions.pow1 in Hn0. unfold Rdiv in Hn0. rewrite Rmult_1_l in Hn0. exact Hn0.
  - intros eps Heps. destruct (Hl eps Heps) as (n0 & Hn0).
    exists n0. intros n Hn. specialize (Hn0 n Hn).
    replace (sum_f_R0 (tg_alt (fun i => / INR (fact i))%R) n)
      with (sum_f_R0 (fun i => (/ INR (fact i) * (-1) ^ i)%R) n); [exact Hn0|].
    apply sum_eq. intros i _. unfold tg_alt. apply Rmult_comm.
Qed.

(** Euler's number lies between two fractions that agree to 19 digits. *)
Lemma exp_1_bounds :
  (IZR (fst e_lower) / IZR (snd e_lower) <= exp 1 <=
   IZR (fst e_upper) / IZR (snd e_upper))%R.
Proof.
  pose proof (exp_m1_bounds 10) as [Hlo Hhi].
  rewrite alt_sum in Hlo, Hhi.
  change (S (2 * 10)) with 21%nat in Hlo. change (2 * 10)%nat with 20%nat in Hhi.
  replace (Zfact 21) with (fst e_upper) in Hlo by (vm_compute; reflexivity).
  replace (alt_num 21) with (snd e_upper) in Hlo by (vm_compute; reflexivity).
  replace (Zfact 20) with (fst e_lower) in Hhi by (vm_compute; reflexivity).
  replace (alt_num 20) with (snd e_lower) in Hhi by (vm_compute; reflexivity).
  assert (He : exp 1 = (/ exp (-1))%R).
  { replace (-1)%R with (- (1))%R by lra. rewrite exp_Ropp, Rinv_inv. reflexivity. }
  pose proof (exp_pos (-1)) as Hpos.
  unfold e_lower, e_upper in *. cbn [fst snd] in *.
  rewrite He. split.
  - apply Rmult_le_reg_r with (exp (-1)); [assumption|].
    rewrite Rinv_l by lra. lra.
  - apply Rmult_le_reg_r with (exp (-1)); [assumption|].
    rewrite Rinv_l by lra. lra.
Qed.

End EulerFacts.

Import Binary64 Binary64Facts.

(** ** Real values and tolerances *)

Lemma powerRZ_2_nonneg (k : Z) : 0 <= k -> powerRZ 2 k = IZR (2 ^ k).
Proof.
  intros Hk. replace k with (Z.of_nat (Z.to_nat k)) by lia.
  rewrite <- pow_powerRZ, pow_IZR. reflexivity.
Qed.

Lemma powerRZ_2_nonpos (k : Z) : k <= 0 -> powerRZ 2 k = (/ IZR (2 ^ (- k)))%R.
Proof.
  intros Hk. replace k with (- - k) at 1 by lia.
  rewrite powerRZ_neg', powerRZ_2_nonneg by lia. reflexivity.
Qed.

Lemma to_R_binade (m : positive) :
  to_R (S754_finite false m (-51)) = (IZR (Zpos m) / 2251799813685248)%R.
Proof.
  unfold to_R. cbn [cond_Zopp]. rewrite powerRZ_2_nonpos by lia.
  change (2 ^ (- -51)) with 2251799813685248. reflexivity.
Qed.

Lemma to_R_sub_E (s : bool) (m : positive) (e : Z) :
  (to_R (S754_finite s m e) - to_R Double.E)%R =
  (IZR (diff_man s m e) * powerRZ 2 (diff_exp e))%R.
Proof.
  unfold to_R, Double.E, diff_man. cbn [cond_Zopp].
  assert (H2 : (2 <> 0)%R) by lra.
  assert (He : diff_exp e <= e /\ diff_exp e <= -51) by (unfold diff_exp; lia).
  replace (powerRZ 2 e) with (powerRZ 2 ((e - diff_exp e) + diff_exp e)) by (f_equal; lia).
  replace (powerRZ 2 (-51)) with (powerRZ 2 ((-51 - diff_exp e) + diff_exp e))
    by (f_equal; lia).
  rewrite !powerRZ_add by assumption.
  rewrite (powerRZ_2_nonneg (e - diff_exp e)), (powerRZ_2_nonneg (-51 - diff_exp e)) by lia.
  unfold mE.
  destruct s; cbn [cond_Zopp]; rewrite minus_IZR, ?opp_IZR, !mult_IZR; ring.
Qed.

Lemma within_E_small (s : bool) (m : positive) (e : Z) :
  within_E (S754_finite s m e) ->
  Z.abs (diff_man s m e) * 10 ^ 10 < 2 ^ (- diff_exp e).
Proof.
  intros [_ H]. rewrite to_R_sub_E in H.
  assert (He : diff_exp e <= -51) by (unfold diff_exp; lia).
  rewrite powerRZ_2_nonpos in H by lia.
  assert (Hp : 0 < 2 ^ (- diff_exp e)) by (apply Z.pow_pos_nonneg; lia).
  revert H Hp. generalize (2 ^ (- diff_exp e)) (diff_man s m e). intros P D H Hp.
  apply lt_IZR. rewrite mult_IZR, abs_IZR.
  apply IZR_lt in Hp.
  rewrite Rabs_mult, (Rabs_pos_eq (/ IZR P)) in H
    by (apply Rlt_le, Rinv_0_lt_compat; assumption).
  assert (H10 : (0 < IZR (10 ^ 10))%R) by (apply IZR_lt; reflexivity).
  apply (Rmult_lt_compat_r (IZR P)) in H; [|assumption].
  rewrite Rmult_assoc, Rinv_l, Rmult_1_r in H by lra.
  apply (Rmult_lt_compat_r (IZR (10 ^ 10))) in H; [|assumption].
  replace (/ IZR (10 ^ 10) * IZR P * IZR (10 ^ 10))%R with (IZR P) in H
    by (field; lra).
  exact H.
Qed.

Lemma to_R_E : to_R Double.E = (6121026514868073 / 2251799813685248)%R.
Proof. apply (to_R_binade 6121026514868073). Qed.

(** Every double within [1e-10] of [E] passes the test of
    [is_const_e]. *)
Lemma within_E_accepted (c : double) :
  Double.valid c = true -> within_E c -> is_const_e c = true.
Proof.
  intros Hv Hc. destruct c as [s|s| |s m e].
  - destruct Hc as [_ H]. rewrite to_R_E in H. cbn [to_R] in H.
    change (10 ^ 10) with 10000000000 in H.
    apply Rabs_def2 in H. lra.
  - destruct Hc as [H _]. discriminate H.
  - destruct Hc as [H _]. discriminate H.
  - pose proof (within_E_small s m e Hc) as Hs.
    unfold Double.valid in Hv. cbn [valid_binary] in Hv.
    assert (Hlt : Z.abs (diff_man s m e) < 2 ^ (-33 - diff_exp e)).
    { assert (He : diff_exp e <= -51) by (unfold diff_exp; lia).
      replace (- diff_exp e) with (33 + (-33 - diff_exp e)) in Hs by lia.
      rewrite Z.pow_add_r in Hs by lia.
      assert (Hq : 0 < 2 ^ (-33 - diff_exp e)) by (apply Z.pow_pos_nonneg; lia).
      revert Hs Hq. generalize (2 ^ (-33 - diff_exp e)) (Z.abs (diff_man s m e)).
      intros Q a Hs Hq. change (2 ^ 33) with 8589934592 in Hs.
      change (10 ^ 10) with 10000000000 in Hs. lia. }
    destruct (close_to_E s m e Hv Hlt) as (-> & -> & Hm).
    apply bounded_inv in Hv. destruct Hv as (_ & Hhi & _).
    rewrite is_const_e_binade by assumption. apply Z.leb_le.
    unfold diff_man, diff_exp in Hs. rewrite Z.min_l in Hs by lia.
    rewrite !Z.sub_diag, Z.pow_0_r, !Z.mul_1_r in Hs. cbn [cond_Zopp] in Hs.
    change (2 ^ (- -51)) with 2251799813685248 in Hs.
    change (10 ^ 10) with 10000000000 in Hs. lia.
Qed.

(** Every double that passes the test of [is_const_e] is within [1e-10]
    of Euler's number. *)
Lemma accepted_within_e (c : double) :
  Double.valid c = true -> is_const_e c = true -> within_e c.
Proof.
  intros Hv H. apply (is_const_e_iff c Hv) in H. destruct H as (m & -> & Hm).
  split; [reflexivity|]. rewrite to_R_binade.
  pose proof EulerFacts.exp_1_bounds as [Hlo Hhi].
  unfold Euler.e_lower, Euler.e_upper in Hlo, Hhi. cbn [fst snd] in Hlo, Hhi.
  unfold mE in Hm.
  assert (H1 : (IZR 6121026514642894 <= IZR (Zpos m))%R) by (apply IZR_le; lia).
  assert (H2 : (IZR (Zpos m) <= IZR 6121026515093252)%R) by (apply IZR_le; lia).
  change (10 ^ 10) with 10000000000.
  apply Rabs_def1; lra.
Qed.

Lemma eqb_0_zero (c : double) :
  Double.eqb c (Double.of_int 0) = true -> exists s, c = S754_zero s.
Proof.
  rewrite of_int_0. unfold Double.eqb, SFeqb, SFcompare.
  destruct c as [s|s| |s m e]; try discriminate.
  - intros _. exists s. reflexivity.
  - destruct s; discriminate.
  - destruct s; discriminate.
Qed.

Lemma is_const_e_not_zero (c : double) :
  is_const_e c = true -> Double.eqb c (Double.of_int 0) = false.
Proof.
  intros H. destruct (Double.eqb c (Double.of_int 0)) eqn:H0; [|reflexivity].
  apply eqb_0_zero in H0. destruct H0 as (s & ->).
  destruct is_const_e_special as (Hz & _). rewrite Hz in H. discriminate H.
Qed.

Lemma ln_create_cases (c : double) :
  ln_create (constant c) =
    if Double.eqb c (Double.of_int 0) then Throw LogOfZero
    else if is_const_e c then Return (Fresh (constant (Double.of_int 1)))
    else Return (Fresh (ln (constant c))).
Proof. reflexivity. Qed.

(** ** Natural logarithms *)

(** Against C7 as stated: the double 225180 units in the last place above
    [E] is within [1e-10] of Euler's number, and [ln::create] wraps it in
    an [ln] node, because [fabs(val - E)] is not below [0.0000000001]. *)
Lemma ln_create_within_e_not_one :
  ~ (forall c : double,
        Double.valid c = true -> within_e c ->
        created_node (ln_create (constant c)) = Return (constant (Double.of_int 1))).
Proof.
  intros H. specialize (H e_neighbour eq_refl).
  assert (Hw : within_e e_neighbour).
  { split; [reflexivity|]. unfold e_neighbour. rewrite to_R_binade.
    pose proof EulerFacts.exp_1_bounds as [Hlo Hhi].
    unfold Euler.e_lower, Euler.e_upper in Hlo, Hhi. cbn [fst snd] in Hlo, Hhi.
    change (10 ^ 10) with 10000000000.
    apply Rabs_def1; lra. }
  specialize (H Hw). vm_compute in H. discriminate H.
Qed.

(** C7, amended. [ln::create(constant(0))] throws the log-of-zero error,
    and [ln::create(constant(c))] returns [constant(1)] for every double
    [c] within absolute tolerance [1e-10] of the double constant
    [E = 2.718281828459045] of the program. *)
Theorem ln_create_zero_and_near_E :
  ln_create (constant (Double.of_int 0)) = Throw LogOfZero /\
  (forall c : double,
      Double.valid c = true -> within_E c ->
      ln_create (constant c) = Return (Fresh (constant (Double.of_int 1)))).
Proof.
  split; [reflexivity|]. intros c Hv Hc.
  pose proof (within_E_accepted c Hv Hc) as He.
  rewrite ln_create_cases, (is_const_e_not_zero c He), He. reflexivity.
Qed.

Lemma ln_create_zero_and_near_E_witness :
  Double.valid E_succ = true /\ within_E E_succ /\
  ln_create (constant E_succ) = Return (Fresh (constant (Double.of_int 1))).
Proof.
  assert (Hw : within_E E_succ).
  { split; [reflexivity|]. unfold E_succ. rewrite to_R_binade, to_R_E.
    change (10 ^ 10) with 10000000000. apply Rabs_def1; lra. }
  split; [reflexivity|]. split; [exact Hw|].
  apply (proj2 ln_create_zero_and_near_E E_succ); [reflexivity|exact Hw].
Defined.

(** C10. For every constant [c] that is not 0 and not within [1e-10] of
    Euler's number, [ln::create(constant(c))] returns an [ln] node that
    wraps the constant; this covers every negative [c]; and a constant
    equal to 0 is the only constant for which [ln::create] throws. *)
Theorem ln_create_other_constants :
  (forall c : double,
      Double.valid c = true -> Double.eqb c (Double.of_int 0) = false -> ~ within_e c ->
      ln_create (constant c) = Return (Fresh (ln (constant c)))) /\
  (forall (m : positive) (e : Z),
      Double.valid (S754_finite true m e) = true ->
      ln_create (constant (S754_finite true m e)) =
        Return (Fresh (ln (constant (S754_finite true m e))))) /\
  ln_create (constant (S754_infinity true)) =
    Return (Fresh (ln (constant (S754_infinity true)))) /\
  (forall (c : double) (what : string),
      ln_create (constant c) = Throw what ->
      Double.eqb c (Double.of_int 0) = true /\ what = LogOfZero).
Proof.
  repeat split.
  - intros c Hv H0 Hn. rewrite ln_create_cases, H0.
    destruct (is_const_e c) eqn:He; [|reflexivity].
    elim Hn. apply accepted_within_e; assumption.
  - intros m e Hv. rewrite ln_create_cases.
    destruct (is_const_e (S754_finite true m e)) eqn:He.
    + apply (is_const_e_iff _ Hv) in He. destruct He as (m' & Heq & _). discriminate Heq.
    + reflexivity.
  - rewrite ln_create_cases in H.
    destruct (Double.eqb c (Double.of_int 0)); [reflexivity|].
    destruct (is_const_e c); discriminate H.
  - rewrite ln_create_cases in H.
    destruct (Double.eqb c (Double.of_int 0)); [congruence|].
    destruct (is_const_e c); discriminate H.
Qed.

Lemma ln_create_other_constants_witness :
  Double.valid (Double.of_int 5) = true /\
  Double.eqb (Double.of_int 5) (Double.of_int 0) = false /\
  ~ within_e (Double.of_int 5) /\
  ln_create (constant (Double.of_int 5)) = Return (Fresh (ln (constant (Double.of_int 5)))) /\
  Double.valid (Double.of_int (-2)) = true /\
  ln_create (constant (Double.of_int (-2))) =
    Return (Fresh (ln (constant (Double.of_int (-2))))).
Proof.
  assert (Hn : ~ within_e (Double.of_int 5)).
  { intros [_ H]. change (Double.of_int 5) with (S754_finite false 5629499534213120 (-50)) in H.
    unfold to_R in H. cbn [cond_Zopp] in H. rewrite powerRZ_2_nonpos in H by lia.
    change (2 ^ (- -50)) with 1125899906842624 in H.
    replace (IZR 5629499534213120 * / IZR 1125899906842624)%R with 5%R in H by lra.
    pose proof exp_le_3. change (10 ^ 10) with 10000000000 in H.
    apply Rabs_def2 in H. lra. }
  split; [reflexivity|]. split; [reflexivity|]. split; [exact Hn|]. split.
  - apply (proj1 ln_create_other_constants (Double.of_int 5));
      [reflexivity|reflexivity|exact Hn].
  - split; [reflexivity|].
    apply (proj1 (proj2 ln_create_other_constants) 4503599627370496%positive (-51)).
    reflexivity.
Defined.

(** ** Exact tests against 0 and 1 *)

Lemma Operand_inj (a b : base_expr) : Operand a = Operand b -> a = b.
Proof. intros H. injection H. trivial. Qed.

(** The tests met first: those of the left operand of [add::create] and
    [mul::create], and those of the right operand of [sub::create],
    [div::create] and [pow::create]. *)
Lemma first_tests_exact (c : double) (X : base_expr) :
  (add_create (constant c) X = Operand X <-> Double.eqb c (Double.of_int 0) = true) /\
  (sub_create X (constant c) = Operand X <-> Double.eqb c (Double.of_int 0) = true) /\
  (mul_create (constant c) X = Operand X <-> Double.eqb c (Double.of_int 1) = true) /\
  (is_constant X = false ->
   (mul_create (constant c) X = Fresh (constant (Double.of_int 0)) <->
    Double.eqb c (Double.of_int 0) = true)) /\
  (div_create X (constant c) = Throw DivisionByZero <->
   Double.eqb c (Double.of_int 0) = true) /\
  (div_create X (constant c) = Return (Operand X) <->
   Double.eqb c (Double.of_int 1) = true) /\
  (is_constant X = false ->
   (pow_create X (constant c) = Fresh (constant (Double.of_int 1)) <->
    Double.eqb c (Double.of_int 0) = true) /\
   (pow_create X (constant c) = Operand X <-> Double.eqb c (Double.of_int 1) = true)) /\
  add_create (constant tiny) X <> Operand X /\
  mul_create (constant tiny) x = Fresh (mul (constant tiny) x) /\
  (Double.eqb E_succ Double.E = false /\
   ln_create (constant E_succ) = Return (Fresh (constant (Double.of_int 1)))).
Proof.
  pose proof (eqb_0_not_1 c) as H01.
  assert (Hself : forall n, constant_is X n = true -> X = constant c ->
                            Double.eqb c (Double.of_int n) = true).
  { intros n Hn ->. exact Hn. }
  repeat split.
  - unfold add_create. cbn [constant_is].
    destruct (Double.eqb c (Double.of_int 0)) eqn:E0; [reflexivity|].
    destruct (constant_is X 0) eqn:HX; intros H; [|discriminate H].
    apply Operand_inj in H. symmetry in H. pose proof (Hself 0 HX H). congruence.
  - intros H. unfold add_create. cbn [constant_is]. rewrite H. reflexivity.
  - unfold sub_create. cbn [constant_is].
    destruct (Double.eqb c (Double.of_int 0)) eqn:E0; [reflexivity|discriminate].
  - intros H. unfold sub_create. cbn [constant_is]. rewrite H. reflexivity.
  - unfold mul_create. cbn [constant_is].
    destruct (Double.eqb c (Double.of_int 0)) eqn:E0; [discriminate|].
    destruct (Double.eqb c (Double.of_int 1)) eqn:E1; [reflexivity|].
    destruct (constant_is X 0); [discriminate|].
    destruct (constant_is X 1) eqn:HX; intros H; [|discriminate H].
    apply Operand_inj in H. symmetry in H. pose proof (Hself 1 HX H). congruence.
  - intros H. unfold mul_create. cbn [constant_is]. rewrite H.
    destruct (Double.eqb c (Double.of_int 0)) eqn:E0; [specialize (H01 eq_refl); congruence|].
    reflexivity.
  - unfold mul_create. cbn [constant_is].
    destruct (Double.eqb c (Double.of_int 0)) eqn:E0; [reflexivity|].
    destruct (Double.eqb c (Double.of_int 1)) eqn:E1; [discriminate|].
    destruct X; try discriminate; cbn [constant_is]; discriminate.
  - intros H0. unfold mul_create. cbn [constant_is]. rewrite H0. reflexivity.
  - unfold div_create. cbn [constant_is].
    destruct (Double.eqb c (Double.of_int 0)) eqn:E0; [reflexivity|].
    destruct (Double.eqb c (Double.of_int 1)) eqn:E1; [discriminate|].
    destruct (constant_is X 0); discriminate.
  - intros H0. unfold div_create. cbn [constant_is]. rewrite H0. reflexivity.
  - unfold div_create. cbn [constant_is].
    destruct (Double.eqb c (Double.of_int 0)) eqn:E0; [discriminate|].
    destruct (Double.eqb c (Double.of_int 1)) eqn:E1; [reflexivity|].
    destruct (constant_is X 0); discriminate.
  - intros H1. unfold div_create. cbn [constant_is]. rewrite H1.
    destruct (Double.eqb c (Double.of_int 0)) eqn:E0; [specialize (H01 eq_refl); congruence|].
    reflexivity.
  - unfold pow_create. rewrite H. cbn [negb andb is_constant constant_is].
    destruct (Double.eqb c (Double.of_int 0)) eqn:E0; [reflexivity|].
    destruct (Double.eqb c (Double.of_int 1)) eqn:E1; discriminate.
  - intros H0. unfold pow_create. rewrite H. cbn [negb andb is_constant constant_is].
    rewrite H0. reflexivity.
  - unfold pow_create. rewrite H. cbn [negb andb is_constant constant_is].
    destruct (Double.eqb c (Double.of_int 0)) eqn:E0; [discriminate|].
    destruct (Double.eqb c (Double.of_int 1)) eqn:E1; [reflexivity|discriminate].
  - intros H1. unfold pow_create. rewrite H. cbn [negb andb is_constant constant_is].
    rewrite H1.
    destruct (Double.eqb c (Double.of_int 0)) eqn:E0; [specialize (H01 eq_refl); congruence|].
    reflexivity.
  - unfold add_create.
    change (constant_is (constant tiny) 0) with false. cbv iota.
    destruct (constant_is X 0) eqn:HX; intros H; [|discriminate H].
    apply Operand_inj in H. subst X. discriminate HX.
Qed.


(** The tests met second: those of the right operand of [add::create]
    and [mul::create] and of the left operand of [div::create], reached
    when the tests met first fail; the test of the argument of
    [ln::create]; and what the factories do with a constant that is equal
    to neither 0 nor 1. *)
Lemma second_tests_exact (c : double) (X : base_expr) :
  (constant_is X 0 = false ->
   (add_create X (constant c) = Operand X <-> Double.eqb c (Double.of_int 0) = true)) /\
  (constant_is X 0 = false -> constant_is X 1 = false ->
   (mul_create X (constant c) = Fresh (constant (Double.of_int 0)) <->
    Double.eqb c (Double.of_int 0) = true) /\
   (mul_create X (constant c) = Operand X <-> Double.eqb c (Double.of_int 1) = true)) /\
  (constant_is X 0 = false -> constant_is X 1 = false ->
   (div_create (constant c) X = Return (Fresh (constant (Double.of_int 0))) <->
    Double.eqb c (Double.of_int 0) = true)) /\
  (ln_create (constant c) = Throw LogOfZero <-> Double.eqb c (Double.of_int 0) = true) /\
  (is_constant X = false ->
   Double.eqb c (Double.of_int 0) = false -> Double.eqb c (Double.of_int 1) = false ->
   add_create (constant c) X = Fresh (add (constant c) X) /\
   add_create X (constant c) = Fresh (add X (constant c)) /\
   sub_create X (constant c) = Fresh (sub X (constant c)) /\
   mul_create (constant c) X = Fresh (mul (constant c) X) /\
   mul_create X (constant c) = Fresh (mul X (constant c)) /\
   div_create X (constant c) = Return (Fresh (div X (constant c))) /\
   div_create (constant c) X = Return (Fresh (div (constant c) X)) /\
   pow_create X (constant c) = Fresh (pow X (constant c))) /\
  (Double.eqb tiny (Double.of_int 0) = false /\
   Double.eqb tiny (Double.of_int 1) = false).
Proof.
  pose proof (eqb_0_not_1 c) as H01.
  assert (Hnc : is_constant X = false -> forall n, constant_is X n = false)
    by (intros HX n; destruct X; try discriminate HX; reflexivity).
  split; [|split; [|split; [|split; [|split]]]].
  - intros X0. unfold add_create. rewrite X0. cbn [constant_is].
    destruct (Double.eqb c (Double.of_int 0)); split; trivial; discriminate.
  - intros X0 X1. unfold mul_create. rewrite X0, X1. cbn [constant_is].
    destruct (Double.eqb c (Double.of_int 0)) eqn:E0.
    + rewrite (H01 eq_refl). repeat split; trivial; discriminate.
    + destruct (Double.eqb c (Double.of_int 1)); repeat split; trivial; discriminate.
  - intros X0 X1. unfold div_create. rewrite X0, X1. cbn [constant_is].
    destruct (Double.eqb c (Double.of_int 0)); split; trivial; discriminate.
  - rewrite ln_create_cases.
    destruct (Double.eqb c (Double.of_int 0)); [split; trivial|].
    destruct (is_const_e c); split; discriminate.
  - intros HX E0 E1.
    unfold add_create, sub_create, mul_create, div_create, pow_create.
    rewrite HX, !(Hnc HX). cbn [constant_is is_constant negb andb].
    rewrite E0, E1. repeat split.
  - split; reflexivity.
Qed.

(** C9. The tests against 0 and 1 in the factories are the exact
    comparison [==] on the value of the constant: each rule of
    [add::create], [sub::create], [mul::create], [div::create] and
    [pow::create], on either operand, and the zero test of [ln::create],
    fires if and only if the value compares equal to the literal; a
    constant equal to neither 0 nor 1, such as the smallest positive
    double, triggers no rule in any position; only [ln::create] accepts
    values near, but different from, its reference value [E]. *)
Theorem exact_zero_one_tests (c : double) (X : base_expr) :
  (add_create (constant c) X = Operand X <-> Double.eqb c (Double.of_int 0) = true) /\
  (sub_create X (constant c) = Operand X <-> Double.eqb c (Double.of_int 0) = true) /\
  (mul_create (constant c) X = Operand X <-> Double.eqb c (Double.of_int 1) = true) /\
  (is_constant X = false ->
   (mul_create (constant c) X = Fresh (constant (Double.of_int 0)) <->
    Double.eqb c (Double.of_int 0) = true)) /\
  (div_create X (constant c) = Throw DivisionByZero <->
   Double.eqb c (Double.of_int 0) = true) /\
  (div_create X (constant c) = Return (Operand X) <->
   Double.eqb c (Double.of_int 1) = true) /\
  (is_constant X = false ->
   (pow_create X (constant c) = Fresh (constant (Double.of_int 1)) <->
    Double.eqb c (Double.of_int 0) = true) /\
   (pow_create X (constant c) = Operand X <-> Double.eqb c (Double.of_int 1) = true)) /\
  add_create (constant tiny) X <> Operand X /\
  mul_create (constant tiny) x = Fresh (mul (constant tiny) x) /\
  (Double.eqb E_succ Double.E = false /\
   ln_create (constant E_succ) = Return (Fresh (constant (Double.of_int 1)))) /\
  (constant_is X 0 = false ->
   (add_create X (constant c) = Operand X <-> Double.eqb c (Double.of_int 0) = true)) /\
  (constant_is X 0 = false -> constant_is X 1 = false ->
   (mul_create X (constant c) = Fresh (constant (Double.of_int 0)) <->
    Double.eqb c (Double.of_int 0) = true) /\
   (mul_create X (constant c) = Operand X <-> Double.eqb c (Double.of_int 1) = true)) /\
  (constant_is X 0 = false -> constant_is X 1 = false ->
   (div_create (constant c) X = Return (Fresh (constant (Double.of_int 0))) <->
    Double.eqb c (Double.of_int 0) = true)) /\
  (ln_create (constant c) = Throw LogOfZero <-> Double.eqb c (Double.of_int 0) = true) /\
  (is_constant X = false ->
   Double.eqb c (Double.of_int 0) = false -> Double.eqb c (Double.of_int 1) = false ->
   add_create (constant c) X = Fresh (add (constant c) X) /\
   add_create X (constant c) = Fresh (add X (constant c)) /\
   sub_create X (constant c) = Fresh (sub X (constant c)) /\
   mul_create (constant c) X = Fresh (mul (constant c) X) /\
   mul_create X (constant c) = Fresh (mul X (constant c)) /\
   div_create X (constant c) = Return (Fresh (div X (constant c))) /\
   div_create (constant c) X = Return (Fresh (div (constant c) X)) /\
   pow_create X (constant c) = Fresh (pow X (constant c))) /\
  (Double.eqb tiny (Double.of_int 0) = false /\
   Double.eqb tiny (Double.of_int 1) = false).
Proof.
  destruct (first_tests_exact c X) as (A1 & A2 & A3 & A4 & A5 & A6 & A7 & A8 & A9 & A10).
  destruct (second_tests_exact c X) as (B1 & B2 & B3 & B4 & B5 & B6).
  repeat (split; [assumption|]). assumption.
Qed.

Lemma exact_zero_one_tests_witness :
  is_constant x = false /\
  (mul_create (constant (Double.of_int 0)) x = Fresh (constant (Double.of_int 0)) <->
   Double.eqb (Double.of_int 0) (Double.of_int 0) = true) /\
  (pow_create x (constant (Double.of_int 1)) = Operand x <->
   Double.eqb (Double.of_int 1) (Double.of_int 1) = true) /\
  constant_is x 0 = false /\ constant_is x 1 = false /\
  (add_create x (constant (Double.of_int 0)) = Operand x <->
   Double.eqb (Double.of_int 0) (Double.of_int 0) = true) /\
  (mul_create x (constant (Double.of_int 1)) = Operand x <->
   Double.eqb (Double.of_int 1) (Double.of_int 1) = true) /\
  (div_create (constant (Double.of_int 0)) x = Return (Fresh (constant (Double.of_int 0))) <->
   Double.eqb (Double.of_int 0) (Double.of_int 0) = true) /\
  Double.eqb tiny (Double.of_int 0) = false /\
  Double.eqb tiny (Double.of_int 1) = false /\
  mul_create x (constant tiny) = Fresh (mul x (constant tiny)) /\
  div_create (constant tiny) x = Return (Fresh (div (constant tiny) x)).
Proof.
  destruct (exact_zero_one_tests (Double.of_int 0) x)
    as (_ & _ & _ & A4 & _ & _ & _ & _ & _ & _ & B1 & _ & B3 & _).
  destruct (exact_zero_one_tests (Double.of_int 1) x)
    as (_ & _ & _ & _ & _ & _ & A7 & _ & _ & _ & _ & B2 & _).
  destruct (exact_zero_one_tests tiny x)
    as (_ & _ & _ & _ & _ & _ & _ & _ & _ & _ & _ & _ & _ & _ & B5 & _).
  destruct (B5 eq_refl eq_refl eq_refl) as (_ & _ & _ & _ & M & _ & D & _).
  split; [reflexivity|]. split; [exact (A4 eq_refl)|].
  split; [exact (proj2 (A7 eq_refl))|].
  split; [reflexivity|]. split; [reflexivity|].
  split; [exact (B1 eq_refl)|].
  split; [exact (proj2 (B2 eq_refl eq_refl))|].
  split; [exact (B3 eq_refl eq_refl)|].
  split; [reflexivity|]. split; [reflexivity|].
  split; [exact M|exact D].
Defined.

(** ** Quotients *)

(** C1. Differentiating [div u v] returns exactly
    [div::create(sub::create(mul::create(u, v'), mul::create(v', u)),
    pow::create(v, constant(2)))], where [u'] and [v'] are the derivatives
    of [u] and [v]: the numerator is built from [u], [v'] and [v'], [u] in
    this order, and [u'] does not occur in it. *)
Theorem div_diff_swapped_numerator (u v dv u' v' : base_expr) :
  diff u dv = Return u' ->
  diff v dv = Return v' ->
  diff (div u v) dv =
    created_node
      (div_create
         (sub_create (mul_create u v') (mul_create v' u))
         (pow_create v (constant (Double.of_int 2)))).
Proof. intros Hu Hv. simpl. rewrite Hu, Hv. reflexivity. Qed.

Lemma div_diff_swapped_numerator_witness :
  diff (pow x c1) x = Return (mul c1 (pow x (constant (Double.of_int 68)))) /\
  diff x x = Return (constant (Double.of_int 1)) /\
  diff (div (pow x c1) x) x =
    created_node
      (div_create
         (sub_create (mul_create (pow x c1) (constant (Double.of_int 1)))
                     (mul_create (constant (Double.of_int 1)) (pow x c1)))
         (pow_create x (constant (Double.of_int 2)))).
Proof.
  split; [reflexivity | split; [reflexivity | ]].
  apply (div_diff_swapped_numerator (pow x c1) x x
           (mul c1 (pow x (constant (Double.of_int 68))))
           (constant (Double.of_int 1))); reflexivity.
Defined.

(** The derivative of [x^69 / x] as the program builds it: the numerator
    is [x^69 - x^69]. *)
Example div_diff_example :
  diff (div (pow x c1) x) x =
    Return (div (sub (pow x c1) (pow x c1)) (pow x (constant (Double.of_int 2)))).
Proof. reflexivity. Qed.

(** C6. [div::create(X, constant(0))] throws the division-by-zero error
    for every [X], also for [X = constant(0)] (the test of the right
    operand comes before the test of the left one), and the call
    allocates no node. *)
Theorem div_create_by_zero (X : base_expr) :
  div_create X (constant (Double.of_int 0)) = Throw DivisionByZero /\
  div_create (constant (Double.of_int 0)) (constant (Double.of_int 0)) = Throw DivisionByZero /\
  allocations (div_create X (constant (Double.of_int 0))) = 0%nat /\
  created_node (div_create X (constant (Double.of_int 0))) = Throw DivisionByZero.
Proof. repeat split. Qed.

(** ** Sums and differences *)

(** C4. [sub::diff] differentiates both children; two constant
    derivatives are folded into the constant of their difference, left
    minus right, and otherwise the result is an [add] node (not a [sub]
    node) of the two derivatives. *)
Theorem sub_diff_builds_add (lhs rhs dv lhs_d rhs_d : base_expr) :
  diff lhs dv = Return lhs_d ->
  diff rhs dv = Return rhs_d ->
  diff (sub lhs rhs) dv =
    Return (match lhs_d, rhs_d with
            | constant l, constant r => constant (Double.sub l r)
            | _, _ => add lhs_d rhs_d
            end).
Proof.
  intros Hl Hr. simpl. rewrite Hl, Hr. simpl.
  destruct lhs_d; try reflexivity; destruct rhs_d; reflexivity.
Qed.

Lemma sub_diff_builds_add_witness :
  diff (pow x c1) x = Return (mul c1 (pow x (constant (Double.of_int 68)))) /\
  diff x x = Return (constant (Double.of_int 1)) /\
  diff (sub (pow x c1) x) x =
    Return (add (mul c1 (pow x (constant (Double.of_int 68))))
                (constant (Double.of_int 1))).
Proof.
  split; [reflexivity | split; [reflexivity | ]].
  apply (sub_diff_builds_add (pow x c1) x x
           (mul c1 (pow x (constant (Double.of_int 68))))
           (constant (Double.of_int 1))); reflexivity.
Defined.

(** A failing child makes [sub::diff] fail the same way. *)
Lemma sub_diff_propagates (lhs rhs dv : base_expr) :
  (forall what, diff lhs dv = Throw what -> diff (sub lhs rhs) dv = Throw what) /\
  (diff lhs dv = Undefined -> diff (sub lhs rhs) dv = Undefined).
Proof. split; intros; simpl; rewrite H; reflexivity. Qed.

(** Folding of two constant derivatives: [d/dx (x - x)] is the constant
    [1 - 1]. *)
Example sub_diff_fold :
  diff (sub x x) x = Return (constant (Double.of_int 0)).
Proof. reflexivity. Qed.

(** C2, evaluated on [5 + x^3]: the derivative of the left child is
    [constant(0)], the derivative of the right child is [3 * x^2], and
    [add::diff] returns the node [add(constant(0), 3 * x^2)], allocated
    with [new add] and not passed through [add::create], which would have
    returned the right derivative alone. *)
Theorem add_diff_keeps_zero_child :
  let e := add c3 (pow x (constant (Double.of_int 3))) in
  let rhs_d := mul (constant (Double.of_int 3)) (pow x (constant (Double.of_int 2))) in
  diff c3 x = Return (constant (Double.of_int 0)) /\
  diff (pow x (constant (Double.of_int 3))) x = Return rhs_d /\
  diff e x = Return (add (constant (Double.of_int 0)) rhs_d) /\
  add_create (constant (Double.of_int 0)) rhs_d = Operand rhs_d /\
  diff e x <> Return (node (add_create (constant (Double.of_int 0)) rhs_d)).
Proof. repeat split. discriminate. Qed.

(** ** Powers *)

Lemma pow_diff_same_shape (lhs rhs dv : base_expr) :
  is_constant lhs = is_constant rhs -> diff (pow lhs rhs) dv = Undefined.
Proof.
  intros H. simpl. rewrite H. destruct (is_constant rhs); reflexivity.
Qed.

(** C3, evaluated on [x^y] and on [2^3]: neither branch of [pow::diff]
    is taken and control reaches the end of the function without a
    [return] and without a [throw]; no exception is raised. *)
Theorem pow_diff_no_return :
  diff (pow (variable "x") (variable "y")) (variable "x") = Undefined /\
  diff (pow (constant (Double.of_int 2)) (constant (Double.of_int 3))) (variable "x") = Undefined /\
  (forall what, diff (pow (variable "x") (variable "y")) (variable "x") <> Throw what).
Proof. repeat split. discriminate. Qed.

(** ** Products *)

(** Against C8 as stated: for [X = constant(-0.0)] the left operand
    compares equal to 0, so [mul::create(X, constant(1))] returns a new
    [constant(0)], which is not [X] (it prints as [0], [X] as [-0]). *)
Lemma mul_create_right_one_not_operand :
  ~ (forall X : base_expr, node (mul_create X (constant (Double.of_int 1))) = X).
Proof. intros H. specialize (H (constant neg_zero)). discriminate H. Qed.

Example mul_create_neg_zero_display :
  display (mul_create (constant neg_zero) (constant (Double.of_int 1))) = "0"%string /\
  display (constant neg_zero) = "-0"%string.
Proof. split; reflexivity. Qed.

(** C8, amended. [mul::create(constant(0), X)] and
    [mul::create(X, constant(0))] return [constant(0)];
    [mul::create(constant(1), X)] returns [X] itself;
    [mul::create(X, constant(1))] returns [X] itself unless [X] is a
    constant that compares equal to 0, where the rule of the left operand,
    checked first, returns a new [constant(0)]. *)
Theorem mul_create_zero_one (X : base_expr) :
  mul_create (constant (Double.of_int 0)) X = Fresh (constant (Double.of_int 0)) /\
  node (mul_create X (constant (Double.of_int 0))) = constant (Double.of_int 0) /\
  mul_create (constant (Double.of_int 1)) X = Operand X /\
  (constant_is X 0 = false ->
   mul_create X (constant (Double.of_int 1)) = Operand X) /\
  (constant_is X 0 = true ->
   mul_create X (constant (Double.of_int 1)) = Fresh (constant (Double.of_int 0))).
Proof.
  repeat split.
  - unfold mul_create. destruct (constant_is X 0); [reflexivity|].
    destruct (constant_is X 1); reflexivity.
  - intros H0. unfold mul_create. rewrite H0.
    destruct (constant_is X 1) eqn:H1; [|reflexivity].
    destruct X; try discriminate. cbn [constant_is] in H1.
    apply eqb_1_eq in H1. subst val. reflexivity.
  - intros H0. unfold mul_create. rewrite H0. reflexivity.
Qed.

Lemma mul_create_zero_one_witness :
  (constant_is x 0 = false ->
   mul_create x (constant (Double.of_int 1)) = Operand x) /\
  (constant_is (constant neg_zero) 0 = true ->
   mul_create (constant neg_zero) (constant (Double.of_int 1)) =
     Fresh (constant (Double.of_int 0))).
Proof.
  split.
  - apply (mul_create_zero_one x).
  - apply (mul_create_zero_one (constant neg_zero)).
Defined.

(** ** The demonstration of [main] *)

(** Against C5 as stated: the text of the derivative of
    [5*x^69 + 5*x^420] is not the one with the factors 69 and 420 in
    front. *)
Lemma pow1_diff_not_claimed_text :
  rendered (diff pow1 x) <>
    Return "((69 * (5 * (x ^ 68))) + (420 * (5 * (x ^ 419))))"%string.
Proof. vm_compute. discriminate. Qed.

(** C5, amended. For [f = 5*x^69 + 5*x^420] built through the smart
    constructors, the derivative with respect to [x] renders as
    [((5 * (69 * (x ^ 68))) + (5 * (420 * (x ^ 419))))]: the product rule
    builds [u * v'] with [u = 5] in front. *)
Theorem pow1_diff_text :
  pow1 = add (mul c3 (pow x c1)) (mul c3 (pow x c2)) /\
  display pow1 = "((5 * (x ^ 69)) + (5 * (x ^ 420)))"%string /\
  rendered (diff pow1 x) =
    Return "((5 * (69 * (x ^ 68))) + (5 * (420 * (x ^ 419))))"%string.
Proof. repeat split. Qed.

(** * Further properties *)

Lemma bind_Return {A B : Type} (o : outcome A) (k : A -> outcome B) (b : B) :
  bind o k = Return b -> exists a, o = Return a /\ k a = Return b.
Proof. destruct o as [a| |]; cbn [bind]; try discriminate. intros H. exists a. auto. Qed.

Lemma bind_Throw {A B : Type} (o : outcome A) (k : A -> outcome B) (what : string) :
  bind o k = Throw what ->
  o = Throw what \/ exists a, o = Return a /\ k a = Throw what.
Proof.
  destruct o as [a| |]; cbn [bind]; try discriminate.
  - intros H. right. exists a. auto.
  - intros H. left. injection H as ->. reflexivity.
Qed.

Lemma div_create_Throw (lhs rhs : base_expr) (what : string) :
  div_create lhs rhs = Throw what -> what = DivisionByZero /\ constant_is rhs 0 = true.
Proof.
  unfold div_create. destruct (constant_is rhs 0); [intros H; injection H; auto|].
  destruct (constant_is rhs 1); [discriminate|].
  destruct (constant_is lhs 0); discriminate.
Qed.

Lemma ln_create_Throw (value : base_expr) (what : string) :
  ln_create value = Throw what -> what = LogOfZero /\ constant_is value 0 = true.
Proof.
  destruct value; try discriminate. unfold ln_create. cbn [constant_is].
  destruct (Double.eqb val (Double.of_int 0)); [intros H; injection H; auto|].
  destruct (is_const_e val); discriminate.
Qed.

(** X1. The only exceptions [diff] lets escape are the two of the factories. *)
Theorem diff_throws_only_math_errors (e dv : base_expr) (what : string) :
  diff e dv = Throw what -> what = DivisionByZero \/ what = LogOfZero.
Proof.
  revert what. induction e as [val|name|l IHl r IHr|l IHl r IHr|l IHl r IHr|l IHl r IHr|l IHl r IHr|v IHv];
    intros what H; cbn [diff] in H.
  - discriminate H.
  - destruct dv; try discriminate H. destruct (String.eqb name name0); discriminate H.
  - apply bind_Throw in H. destruct H as [H|(ld & _ & H)]; [eauto|].
    apply bind_Throw in H. destruct H as [H|(rd & _ & H)]; [eauto|].
    destruct ld; try discriminate H; destruct rd; discriminate H.
  - apply bind_Throw in H. destruct H as [H|(ld & _ & H)]; [eauto|].
    apply bind_Throw in H. destruct H as [H|(rd & _ & H)]; [eauto|].
    destruct ld; try discriminate H; destruct rd; discriminate H.
  - apply bind_Throw in H. destruct H as [H|(ld & _ & H)]; [eauto|].
    apply bind_Throw in H. destruct H as [H|(rd & _ & H)]; [eauto|].
    discriminate H.
  - destruct (negb (is_constant l) && is_constant r).
    + apply bind_Throw in H. destruct H as [H|(ld & _ & H)]; [eauto|].
      destruct r; discriminate H.
    + destruct (is_constant l && negb (is_constant r)); [|discriminate H].
      apply bind_Throw in H. destruct H as [H|(rd & _ & H)]; [eauto|].
      apply bind_Throw in H. destruct H as [H|(c & _ & H)]; [|discriminate H].
      apply ln_create_Throw in H. tauto.
  - apply bind_Throw in H. destruct H as [H|(ld & _ & H)]; [eauto|].
    apply bind_Throw in H. destruct H as [H|(rd & _ & H)]; [eauto|].
    unfold created_node in H.
    apply bind_Throw in H. destruct H as [H|(c & _ & H)]; [|discriminate H].
    apply div_create_Throw in H. tauto.
  - apply bind_Throw in H. destruct H as [H|(vd & _ & H)]; [eauto|].
    apply bind_Throw in H. destruct H as [H|(c & _ & H)]; [|discriminate H].
    apply div_create_Throw in H. tauto.
Qed.

Lemma diff_throws_only_math_errors_witness :
  diff (pow (constant (Double.of_int 0)) x) x = Throw LogOfZero /\
  (LogOfZero = DivisionByZero \/ LogOfZero = LogOfZero).
Proof.
  split; [reflexivity|].
  apply (diff_throws_only_math_errors (pow (constant (Double.of_int 0)) x) x LogOfZero).
  reflexivity.
Defined.

Lemma is_constant_vars (e : base_expr) : is_constant e = true -> vars e = [].
Proof. destruct e; try discriminate. reflexivity. Qed.

(** X2. [diff] returns a value only if every variable of the expression is
    the variable of differentiation. *)
Theorem diff_returns_single_variable (e dv d : base_expr) (name : string) :
  diff e dv = Return d -> In name (vars e) -> dv = variable name.
Proof.
  revert d. induction e as [val|n|l IHl r IHr|l IHl r IHr|l IHl r IHr|l IHl r IHr|l IHl r IHr|v IHv];
    intros d H Hin; cbn [diff] in H; cbn [vars] in Hin.
  - contradiction.
  - destruct Hin as [->|[]]. destruct dv; try discriminate H.
    destruct (String.eqb_spec name name0); [congruence|discriminate H].
  - apply bind_Return in H. destruct H as (ld & Hl & H).
    apply bind_Return in H. destruct H as (rd & Hr & H).
    apply in_app_or in Hin. destruct Hin; eauto.
  - apply bind_Return in H. destruct H as (ld & Hl & H).
    apply bind_Return in H. destruct H as (rd & Hr & H).
    apply in_app_or in Hin. destruct Hin; eauto.
  - apply bind_Return in H. destruct H as (ld & Hl & H).
    apply bind_Return in H. destruct H as (rd & Hr & H).
    apply in_app_or in Hin. destruct Hin; eauto.
  - destruct (negb (is_constant l) && is_constant r) eqn:C1.
    + apply andb_true_iff in C1. destruct C1 as [_ Cr].
      rewrite (is_constant_vars r Cr), app_nil_r in Hin.
      apply bind_Return in H. destruct H as (ld & Hl & H). eauto.
    + destruct (is_constant l && negb (is_constant r)) eqn:C2; [|discriminate H].
      apply andb_true_iff in C2. destruct C2 as [Cl _].
      rewrite (is_constant_vars l Cl) in Hin. cbn [app] in Hin.
      apply bind_Return in H. destruct H as (rd & Hr & H). eauto.
  - apply bind_Return in H. destruct H as (ld & Hl & H).
    apply bind_Return in H. destruct H as (rd & Hr & H).
    apply in_app_or in Hin. destruct Hin; eauto.
  - apply bind_Return in H. destruct H as (vd & Hv & H). eauto.
Qed.

Lemma diff_returns_single_variable_witness :
  diff pow1 x = Return (add (mul c3 (mul c1 (pow x (constant (Double.of_int 68)))))
                            (mul c3 (mul c2 (pow x (constant (Double.of_int 419)))))) /\
  In "x"%string (vars pow1) /\
  x = variable "x".
Proof.
  split; [reflexivity|]. split; [left; reflexivity|].
  apply (diff_returns_single_variable pow1 x
           (add (mul c3 (mul c1 (pow x (constant (Double.of_int 68)))))
                (mul c3 (mul c2 (pow x (constant (Double.of_int 419))))))
           "x"%string); [reflexivity|left; reflexivity].
Defined.

(** X3. For an expression without variables the argument [dv] is never
    looked at. *)
Theorem diff_closed_ignores_dv (e dv dv' : base_expr) :
  vars e = [] -> diff e dv = diff e dv'.
Proof.
  induction e as [val|n|l IHl r IHr|l IHl r IHr|l IHl r IHr|l IHl r IHr|l IHl r IHr|v IHv];
    cbn [vars]; intros Hv; try discriminate Hv;
    try (apply app_eq_nil in Hv; destruct Hv as [Hl Hr]);
    cbn [diff]; try reflexivity;
    try (rewrite (IHl Hl), (IHr Hr); reflexivity).
  rewrite (IHv Hv). reflexivity.
Qed.

Lemma diff_closed_ignores_dv_witness :
  vars (mul c1 c3) = [] /\ diff (mul c1 c3) x = diff (mul c1 c3) c2.
Proof.
  split; [reflexivity|]. apply (diff_closed_ignores_dv (mul c1 c3) x c2). reflexivity.
Defined.

(** ** The factories keep trees simplified *)

Lemma simplified_constant (val : double) : simplified (constant val) = true.
Proof. reflexivity. Qed.

(** X4. A tree assembled by a factory from simplified operands is
    simplified: no rule of any factory applies to any of its nodes. *)
Theorem factories_keep_simplified (lhs rhs : base_expr) :
  simplified lhs = true -> simplified rhs = true ->
  simplified (add_create lhs rhs) = true /\
  simplified (sub_create lhs rhs) = true /\
  simplified (mul_create lhs rhs) = true /\
  simplified (pow_create lhs rhs) = true /\
  (forall c, div_create lhs rhs = Return c -> simplified c = true) /\
  (forall c, ln_create lhs = Return c -> simplified c = true).
Proof.
  intros Hl Hr. repeat split.
  - unfold add_create.
    destruct (constant_is lhs 0) eqn:L0; [exact Hr|].
    destruct (constant_is rhs 0) eqn:R0; [exact Hl|].
    cbn [node simplified reducible]. rewrite L0, R0, Hl, Hr. reflexivity.
  - unfold sub_create.
    destruct (constant_is rhs 0) eqn:R0; [exact Hl|].
    cbn [node simplified reducible]. rewrite R0, Hl, Hr. reflexivity.
  - unfold mul_create.
    destruct (constant_is lhs 0) eqn:L0; [reflexivity|].
    destruct (constant_is lhs 1) eqn:L1; [exact Hr|].
    destruct (constant_is rhs 0) eqn:R0; [reflexivity|].
    destruct (constant_is rhs 1) eqn:R1; [exact Hl|].
    cbn [node simplified reducible]. rewrite L0, L1, R0, R1, Hl, Hr. reflexivity.
  - unfold pow_create.
    destruct (negb (is_constant lhs) && is_constant rhs) eqn:C.
    + destruct (constant_is rhs 0) eqn:R0; [reflexivity|].
      destruct (constant_is rhs 1) eqn:R1; [exact Hl|].
      cbn [node simplified reducible]. rewrite R0, R1, Hl, Hr.
      rewrite andb_false_r. reflexivity.
    + cbn [node simplified reducible]. rewrite Hl, Hr.
      destruct (negb (is_constant lhs)) eqn:NL; [|reflexivity].
      cbn [andb] in C.
      destruct rhs; try discriminate C; reflexivity.
  - intros c. unfold div_create.
    destruct (constant_is rhs 0) eqn:R0; [discriminate|].
    destruct (constant_is rhs 1) eqn:R1; [intros H; injection H as <-; exact Hl|].
    destruct (constant_is lhs 0) eqn:L0; intros H; injection H as <-; [reflexivity|].
    cbn [node simplified reducible]. rewrite R0, R1, L0, Hl, Hr. reflexivity.
  - intros c. destruct lhs; cbn [ln_create];
      try (intros H; injection H as <-; cbn [node simplified reducible] in *;
           rewrite Hl; reflexivity).
    destruct (Double.eqb val (Double.of_int 0)) eqn:V0; [discriminate|].
    destruct (is_const_e val) eqn:Ve; intros H; injection H as <-; [reflexivity|].
    cbn [node simplified reducible]. rewrite V0, Ve. reflexivity.
Qed.

Lemma factories_keep_simplified_witness :
  simplified (pow x c1) = true /\ simplified c3 = true /\
  simplified (mul_create (pow x c1) c3) = true.
Proof.
  split; [reflexivity|]. split; [reflexivity|].
  exact (proj1 (proj2 (proj2 (factories_keep_simplified (pow x c1) c3 eq_refl eq_refl)))).
Defined.

(** ** Quotients *)

(** X5. [div::diff] never throws: the denominator it passes to
    [div::create] is a [pow] node, never a constant.  The result is
    [constant(0)] when the numerator it builds is a constant equal to 0,
    and a [div] node over the square of the denominator otherwise. *)
Theorem div_diff_never_throws (u v dv u' v' : base_expr) :
  diff u dv = Return u' ->
  diff v dv = Return v' ->
  let n := node (sub_create (mul_create u v') (mul_create v' u)) in
  diff (div u v) dv =
    Return (if constant_is n 0 then constant (Double.of_int 0)
            else div n (pow v (constant (Double.of_int 2)))).
Proof.
  intros Hu Hv n. cbn [diff]. rewrite Hu, Hv. cbn [bind].
  rewrite pow_create_two. fold n. unfold div_create. cbn [node constant_is].
  destruct (constant_is n 0); reflexivity.
Qed.

Lemma div_diff_never_throws_witness :
  diff x x = Return (constant (Double.of_int 1)) /\
  diff (pow x c1) x = Return (mul c1 (pow x (constant (Double.of_int 68)))) /\
  diff (div x (pow x c1)) x =
    Return (div (sub (mul x (mul c1 (pow x (constant (Double.of_int 68)))))
                     (mul (mul c1 (pow x (constant (Double.of_int 68)))) x))
                (pow (pow x c1) (constant (Double.of_int 2)))).
Proof.
  split; [reflexivity|]. split; [reflexivity|].
  apply (div_diff_never_throws x (pow x c1) x (constant (Double.of_int 1))
           (mul c1 (pow x (constant (Double.of_int 68))))); reflexivity.
Defined.

(** X6. When the derivative of the denominator is a constant equal to 0, the
    derivative of the quotient is [constant(0)], whatever the numerator
    is. *)
Theorem div_diff_constant_denominator (u v dv u' v' : base_expr) :
  diff u dv = Return u' ->
  diff v dv = Return v' ->
  constant_is v' 0 = true ->
  diff (div u v) dv = Return (constant (Double.of_int 0)).
Proof.
  intros Hu Hv H0. cbn [diff]. rewrite Hu, Hv. cbn [bind].
  rewrite pow_create_two.
  assert (Hn : constant_is (sub_create (mul_create u v') (mul_create v' u)) 0 = true).
  { assert (Hr : mul_create v' u = Fresh (constant (Double.of_int 0)))
      by (unfold mul_create; rewrite H0; reflexivity).
    rewrite Hr. unfold sub_create. cbn [node].
    change (constant_is (constant (Double.of_int 0)) 0) with true. cbv iota. cbn [node].
    unfold mul_create.
    destruct (constant_is u 0); [reflexivity|].
    destruct (constant_is u 1); [exact H0|].
    rewrite H0. reflexivity. }
  unfold div_create. cbn [node constant_is] in *. rewrite Hn. reflexivity.
Qed.

Lemma div_diff_constant_denominator_witness :
  diff x x = Return (constant (Double.of_int 1)) /\
  diff c3 x = Return (constant (Double.of_int 0)) /\
  constant_is (constant (Double.of_int 0)) 0 = true /\
  diff (div x c3) x = Return (constant (Double.of_int 0)).
Proof.
  split; [reflexivity|]. split; [reflexivity|]. split; [reflexivity|].
  apply (div_diff_constant_denominator x c3 x (constant (Double.of_int 1))
           (constant (Double.of_int 0))); reflexivity.
Defined.

(** ** Powers *)

(** X7. The power rule on a variable: the derivative of [v^n] with respect to
    [v] is [constant(0)] for [n == 0], [constant(1)] for [n == 1], and
    otherwise the product of [n] and [pow::create(v, n - 1)] as
    [mul::create] builds it; the trailing factor 1, the derivative of [v],
    is dropped. *)
Theorem pow_diff_variable (name : string) (n : double) :
  let v := variable name in
  (Double.eqb n (Double.of_int 0) = true ->
   diff (pow v (constant n)) v = Return (constant (Double.of_int 0))) /\
  (Double.eqb n (Double.of_int 1) = true ->
   diff (pow v (constant n)) v = Return (constant (Double.of_int 1))) /\
  (Double.eqb n (Double.of_int 0) = false ->
   Double.eqb n (Double.of_int 1) = false ->
   diff (pow v (constant n)) v =
     Return (node (mul_create (constant n)
                     (pow_create v (constant (Double.sub n (Double.of_int 1))))))).
Proof.
  intros v. subst v.
  assert (Hd : forall n', diff (pow (variable name) (constant n')) (variable name) =
            Return (node (mul_create
                            (mul_create (constant n')
                               (pow_create (variable name)
                                  (constant (Double.sub n' (Double.of_int 1)))))
                            (constant (Double.of_int 1))))).
  { intros n'. cbn [diff is_constant negb andb]. rewrite String.eqb_refl. reflexivity. }
  repeat split.
  - intros H0. rewrite Hd. unfold mul_create at 2. cbn [constant_is]. rewrite H0.
    reflexivity.
  - intros H1. apply eqb_1_eq in H1. subst n. rewrite Hd. reflexivity.
  - intros H0 H1. rewrite Hd.
    set (p := pow_create (variable name) (constant (Double.sub n (Double.of_int 1)))).
    assert (Hp : constant_is p 0 = false).
    { subst p. unfold pow_create. cbn [is_constant negb andb constant_is].
      destruct (Double.eqb (Double.sub n (Double.of_int 1)) (Double.of_int 0));
        [reflexivity|].
      destruct (Double.eqb (Double.sub n (Double.of_int 1)) (Double.of_int 1));
        reflexivity. }
    unfold mul_create at 2 3. cbn [constant_is]. rewrite H0, H1, Hp.
    destruct (constant_is p 1).
    + cbn [node]. unfold mul_create. cbn [constant_is]. rewrite H0, H1. reflexivity.
    + reflexivity.
Qed.

Lemma pow_diff_variable_witness :
  Double.eqb (Double.of_int 69) (Double.of_int 0) = false /\
  Double.eqb (Double.of_int 69) (Double.of_int 1) = false /\
  diff (pow (variable "x") (constant (Double.of_int 69))) (variable "x") =
    Return (node (mul_create (constant (Double.of_int 69))
                    (pow_create (variable "x")
                       (constant (Double.sub (Double.of_int 69) (Double.of_int 1)))))).
Proof.
  split; [reflexivity|]. split; [reflexivity|].
  apply (proj2 (proj2 (pow_diff_variable "x" (Double.of_int 69)))); reflexivity.
Defined.

(** X8. The exponential rule for a constant base [c] and a non-constant
    exponent [u]: a base equal to 0 makes [ln::create] throw; for a base
    accepted by [is_const_e] the factor [ln(c)] is the constant 1 and is
    dropped; otherwise the result is [(c^u * ln(c)) * u'] as
    [mul::create] builds it. *)
Theorem pow_diff_constant_base (c : double) (u dv u' : base_expr) :
  is_constant u = false ->
  diff u dv = Return u' ->
  diff (pow (constant c) u) dv =
    if Double.eqb c (Double.of_int 0) then Throw LogOfZero
    else if is_const_e c then
      Return (node (mul_create (pow (constant c) u) u'))
    else
      Return (node (mul_create (mul (pow (constant c) u) (ln (constant c))) u')).
Proof.
  intros Hc Hu. cbn [diff is_constant negb andb]. rewrite Hc, Hu. cbn [negb bind].
  rewrite ln_create_cases.
  destruct (Double.eqb c (Double.of_int 0)); [reflexivity|].
  destruct (is_const_e c); reflexivity.
Qed.

Lemma pow_diff_constant_base_witness :
  is_constant (mul c1 x) = false /\
  diff (mul c1 x) x = Return c1 /\
  diff (pow c3 (mul c1 x)) x =
    Return (mul (mul (pow c3 (mul c1 x)) (ln c3)) c1).
Proof.
  split; [reflexivity|]. split; [reflexivity|].
  apply (pow_diff_constant_base (Double.of_int 5) (mul c1 x) x c1); reflexivity.
Defined.

(** ** Natural logarithms *)

(** X9. The chain rule of [ln::diff]: for an argument that is a constant
    equal to 0 the call of [div::create] throws the division error;
    otherwise the result is [mul::create(1 / v, v')], with [1 / v]
    replaced by [constant(1)] when [v] is a constant equal to 1. *)
Theorem ln_diff_chain_rule (v dv v' : base_expr) :
  diff v dv = Return v' ->
  diff (ln v) dv =
    if constant_is v 0 then Throw DivisionByZero
    else Return (node (mul_create
                         (if constant_is v 1 then constant (Double.of_int 1)
                          else div (constant (Double.of_int 1)) v)
                         v')).
Proof.
  intros Hv. cbn [diff]. rewrite Hv. cbn [bind]. unfold div_create.
  destruct (constant_is v 0); [reflexivity|].
  destruct (constant_is v 1); reflexivity.
Qed.

Lemma ln_diff_chain_rule_witness :
  diff x x = Return (constant (Double.of_int 1)) /\
  diff (ln x) x = Return (div (constant (Double.of_int 1)) x).
Proof.
  split; [reflexivity|].
  apply (ln_diff_chain_rule x x (constant (Double.of_int 1))). reflexivity.
Defined.

(** X10. The test of [is_const_e], carried out in double arithmetic, decides
    exactly whether the real number denoted by a double is at distance
    less than [1e-10] from the one denoted by [E]. *)
Theorem is_const_e_exact (c : double) :
  Double.valid c = true -> (is_const_e c = true <-> within_E c).
Proof.
  intros Hv. split; [|apply within_E_accepted; assumption].
  intros H. apply (is_const_e_iff c Hv) in H. destruct H as (m & -> & Hm).
  split; [reflexivity|]. rewrite to_R_binade, to_R_E.
  unfold mE in Hm.
  assert (H1 : (IZR 6121026514642894 <= IZR (Zpos m))%R) by (apply IZR_le; lia).
  assert (H2 : (IZR (Zpos m) <= IZR 6121026515093252)%R) by (apply IZR_le; lia).
  change (10 ^ 10) with 10000000000.
  apply Rabs_def1; lra.
Qed.

Lemma is_const_e_exact_witness :
  Double.valid E_succ = true /\ (is_const_e E_succ = true <-> within_E E_succ).
Proof.
  split; [reflexivity|]. apply (is_const_e_exact E_succ). reflexivity.
Defined.

(** ** The program *)

(** X11. [main] throws nothing and writes three lines: each expression, a
    tab, a colon, a tab, and its derivative. *)
Theorem main_output :
  main =
    Return ("((5 * (x ^ 69)) + (5 * (x ^ 420)))" ++ tab ++ ":" ++ tab ++
            "((5 * (69 * (x ^ 68))) + (5 * (420 * (x ^ 419))))" ++ endl ++
            "(5 ^ (69 * x))" ++ tab ++ ":" ++ tab ++
            "(((5 ^ (69 * x)) *  ln(5)) * 69)" ++ endl ++
            "(2.71828 ^ (69 * x))" ++ tab ++ ":" ++ tab ++
            "((2.71828 ^ (69 * x)) * 69)" ++ endl)%string.
Proof. vm_compute. reflexivity. Qed.
